(** * The dataset-ingestion pipeline of docs/examples/batch-processing/ml-pipeline.js

    A shallow embedding of [DatasetStats], [FileProcessor] and [MLPipeline]
    and of the CLI entry point, with the properties the specification states
    about them.

    - JavaScript numbers that the pipeline uses are counters and byte sizes;
      they are integers here ([Z]).  The three places where the code does
      floating-point arithmetic ([toFixed], [Math.round] of a quotient) are
      kept as the expression over its integer operands ([JsNumber]).
    - JavaScript objects used as dictionaries are [gmap string Z].
    - Exceptions are the [Throw] results of a state-and-exception monad; state
      changes made before a [throw] survive it, as in JavaScript.
    - The file system is a finite tree rooted at [CONFIG.datasetPath] for
      reading, and a map of written files for the output side.
    - Console logging ([Logger]) is not modelled. *)

From Stdlib Require Import ZArith String List Ascii Bool Lia Sorted.
From stdpp Require Import gmap strings list fin_maps.

Open Scope string_scope.
Open Scope Z_scope.

(** ** JavaScript values and exceptions *)

(** An [Error] object; only its [message] is ever read. *)
Record JsError := mkError { message : string }.

Inductive Result (A : Type) : Type :=
| Ok (a : A)
| Throw (e : JsError).
Arguments Ok {A} a.
Arguments Throw {A} e.

(** A number as the report holds it. *)
Inductive JsNumber :=
| Num (z : Z)                  (* an integer value *)
| PctFixed1 (num den : Z)      (* (num / den * 100).toFixed(1) *)
| RoundDiv (num den : Z).      (* Math.round(num / den) *)

(** ** String and path helpers *)

(** [s.endsWith(suffix)] *)
Definition endsWith (s suffix : string) : bool :=
  String.prefix (String.rev suffix) (String.rev s).

(** [s.includes(pattern)] *)
Definition includes (s pattern : string) : bool :=
  match index 0 pattern s with Some _ => true | None => false end.

(** [arr.includes(x)] on an array of strings *)
Definition array_includes (arr : list string) (x : string) : bool :=
  existsb (String.eqb x) arr.

(** JavaScript truthiness of an optional string: [undefined] and the empty
    string are falsy. *)
Definition truthy (v : option string) : bool :=
  match v with
  | Some s => negb (String.eqb s "")
  | None => false
  end.

Definition sep : ascii := "/"%char.

(** The segments of a path between separators. *)
Fixpoint segments_go (cur : string) (s : string) : list string :=
  match s with
  | EmptyString => [cur]
  | String c rest =>
      if Ascii.eqb c sep then cur :: segments_go "" rest
      else segments_go (cur +:+ String c "") rest
  end.

Definition segments (p : string) : list string := segments_go "" p.

Definition unsegments (l : list string) : string := String.concat "/" l.

(** [path.join(a, b)].  The paths the pipeline builds have no [.] or [..]
    segment and no doubled separator, so Node's normalisation leaves the
    concatenation unchanged. *)
Definition path_join (a b : string) : string := a +:+ "/" +:+ b.

(** [path.basename(p)] *)
Definition path_basename (p : string) : string := List.last (segments p) "".

(** [path.dirname(p)] *)
Definition path_dirname (p : string) : string :=
  match List.removelast (segments p) with
  | [] => "."
  | l => unsegments l
  end.

Fixpoint strip_common (a b : list string) : list string * list string :=
  match a, b with
  | x :: a', y :: b' => if String.eqb x y then strip_common a' b' else (a, b)
  | _, _ => (a, b)
  end.

(** [path.relative(from, to)]: one [..] for every segment of [from] that is
    not shared, then the rest of [to]. *)
Definition path_relative (from to : string) : string :=
  let '(up, down) := strip_common (segments from) (segments to) in
  unsegments (List.map (fun _ => "..") up ++ down).

(** ** Configuration ([CONFIG]) *)

Record Config := mkConfig {
  datasetPath : string;
  outputPath : string;
  logLevel : string;
  strictMode : bool;
  maxFileSize : Z;
  allowedOrigins : list string;
  excludePatterns : list string
}.

(** ** Metadata records

    [lib/core/metadata] and [lib/formats/html-meta] are not part of the
    sources at hand.  A [ContentMetadata] object is represented by the fields
    the pipeline reads and by the values its argument-free methods return;
    [validate()] returns its verdict and does not throw. *)

Record ValidationResult := mkValidation { isValid : bool; error : string }.

Record ContentMetadata := mkMetadata {
  origin : string;
  author : string;
  license : option string;
  toolchain : option string;
  contentHash : string;
  validate : ValidationResult;     (* metadata.validate() *)
  toXML : string                   (* metadata.toXML() *)
}.

(** The plain object [metadata.toObject()] hands to the statistics. *)
Record MetadataObject := mkObject {
  o_origin : string;
  o_author : string;
  o_license : option string;
  o_toolchain : option string
}.

Definition toObject (m : ContentMetadata) : MetadataObject :=
  {| o_origin := origin m; o_author := author m;
     o_license := license m; o_toolchain := toolchain m |}.

(** The functions of the two absent modules that the pipeline calls. *)
Class MetadataLib := {
  parseXML : string -> Result (option ContentMetadata);
      (* ContentMetadata.parseXML(xmlContent), awaited *)
  html_extractMetadata : string -> Result (option ContentMetadata);
      (* extractMetadata(htmlContent) of lib/formats/html-meta; the call is
         not awaited, it is taken to be synchronous *)
  computeHash : string -> string
      (* SHA-256 of the content bytes, in hexadecimal *)
}.

(** Modelled from the spec: [ContentMetadata.verifyIntegrity] of
    lib/core/metadata is missing.  It "recomputes the hash and compares ...
    byte/string equality against contentHash". *)
Definition verifyIntegrity `{MetadataLib} (m : ContentMetadata) (content : string) : bool :=
  String.eqb (computeHash content) (contentHash m).

(** ** DatasetStats *)

Record SizeStats := mkSizeStats {
  sizeMin : option Z;      (* [None] is [Infinity] *)
  sizeMax : Z;
  sizeTotal : Z
}.

Record ErrorEntry := mkErrorEntry { e_file : string; e_error : string }.

Record DatasetStats := mkStats {
  totalFiles : Z;
  processedFiles : Z;
  skippedFiles : Z;
  errorFiles : Z;
  originCounts : gmap string Z;
  authorCounts : gmap string Z;
  licenseCounts : gmap string Z;
  toolchainCounts : gmap string Z;
  sizeStats : SizeStats;
  errors : list ErrorEntry
}.

(** [reset()], which the constructor calls. *)
Definition reset : DatasetStats :=
  {| totalFiles := 0; processedFiles := 0; skippedFiles := 0; errorFiles := 0;
     originCounts := <["human" := 0]> (<["ai" := 0]> (<["hybrid" := 0]> ∅));
     authorCounts := ∅; licenseCounts := ∅; toolchainCounts := ∅;
     sizeStats := {| sizeMin := None; sizeMax := 0; sizeTotal := 0 |};
     errors := [] |}.

(** [counts[key] = (counts[key] || 0) + 1], for keys that are not names of
    properties every object inherits *)
Definition bump (key : string) (counts : gmap string Z) : gmap string Z :=
  <[key := default 0 (counts !! key) + 1]> counts.

Definition bump_if_truthy (key : option string) (counts : gmap string Z) : gmap string Z :=
  match key with
  | Some k => if truthy key then bump k counts else counts
  | None => counts
  end.

(** [Math.min(this.sizeStats.min, fileSize)] with [Infinity] as [None] *)
Definition min_with_infinity (m : option Z) (fileSize : Z) : option Z :=
  match m with
  | None => Some fileSize
  | Some v => Some (Z.min v fileSize)
  end.

Definition TypeError_null_property : JsError :=
  mkError "Cannot read properties of null".

(** [recordFile(metadata, fileSize, status)].  With status ['processed'] and a
    [null] metadata the property access throws after the first two counters
    were incremented. *)
Definition recordFile (metadata : option MetadataObject) (fileSize : Z)
    (status : string) (s : DatasetStats) : Result unit * DatasetStats :=
  let s1 := {| totalFiles := totalFiles s + 1;
               processedFiles := processedFiles s; skippedFiles := skippedFiles s;
               errorFiles := errorFiles s; originCounts := originCounts s;
               authorCounts := authorCounts s; licenseCounts := licenseCounts s;
               toolchainCounts := toolchainCounts s; sizeStats := sizeStats s;
               errors := errors s |} in
  if String.eqb status "processed" then
    match metadata with
    | None =>
        (Throw TypeError_null_property,
         {| totalFiles := totalFiles s1; processedFiles := processedFiles s1 + 1;
            skippedFiles := skippedFiles s1; errorFiles := errorFiles s1;
            originCounts := originCounts s1; authorCounts := authorCounts s1;
            licenseCounts := licenseCounts s1; toolchainCounts := toolchainCounts s1;
            sizeStats := sizeStats s1; errors := errors s1 |})
    | Some md =>
        (Ok tt,
         {| totalFiles := totalFiles s1; processedFiles := processedFiles s1 + 1;
            skippedFiles := skippedFiles s1; errorFiles := errorFiles s1;
            originCounts := bump (o_origin md) (originCounts s1);
            authorCounts := bump (o_author md) (authorCounts s1);
            licenseCounts := bump_if_truthy (o_license md) (licenseCounts s1);
            toolchainCounts := bump_if_truthy (o_toolchain md) (toolchainCounts s1);
            sizeStats := {| sizeMin := min_with_infinity (sizeMin (sizeStats s1)) fileSize;
                            sizeMax := Z.max (sizeMax (sizeStats s1)) fileSize;
                            sizeTotal := sizeTotal (sizeStats s1) + fileSize |};
            errors := errors s1 |})
    end
  else if String.eqb status "skipped" then
    (Ok tt,
     {| totalFiles := totalFiles s1; processedFiles := processedFiles s1;
        skippedFiles := skippedFiles s1 + 1; errorFiles := errorFiles s1;
        originCounts := originCounts s1; authorCounts := authorCounts s1;
        licenseCounts := licenseCounts s1; toolchainCounts := toolchainCounts s1;
        sizeStats := sizeStats s1; errors := errors s1 |})
  else if String.eqb status "error" then
    (Ok tt,
     {| totalFiles := totalFiles s1; processedFiles := processedFiles s1;
        skippedFiles := skippedFiles s1; errorFiles := errorFiles s1 + 1;
        originCounts := originCounts s1; authorCounts := authorCounts s1;
        licenseCounts := licenseCounts s1; toolchainCounts := toolchainCounts s1;
        sizeStats := sizeStats s1; errors := errors s1 |})
  else (Ok tt, s1).

(** [recordError(file, error)] *)
Definition recordError (file : string) (err : JsError) (s : DatasetStats) : DatasetStats :=
  {| totalFiles := totalFiles s; processedFiles := processedFiles s;
     skippedFiles := skippedFiles s; errorFiles := errorFiles s;
     originCounts := originCounts s; authorCounts := authorCounts s;
     licenseCounts := licenseCounts s; toolchainCounts := toolchainCounts s;
     sizeStats := sizeStats s;
     errors := errors s ++ [ {| e_file := file; e_error := message err |} ] |}.

Record Summary := mkSummary {
  r_totalFiles : Z;
  r_processedFiles : Z;
  r_skippedFiles : Z;
  r_errorFiles : Z;
  r_successRate : JsNumber
}.

Record FileSizeReport := mkFileSizeReport {
  r_min : Z;
  r_max : Z;
  r_average : JsNumber;
  r_total : Z
}.

Record Report := mkReport {
  r_summary : Summary;
  r_origins : gmap string Z;
  r_authors : nat;
  r_licenses : nat;
  r_toolchains : nat;
  r_fileSize : FileSizeReport;
  r_errors : list ErrorEntry
}.

(** [getReport()] *)
Definition getReport (s : DatasetStats) : Report :=
  let avgSize :=
    if 0 <? processedFiles s
    then RoundDiv (sizeTotal (sizeStats s)) (processedFiles s)
    else Num 0 in
  {| r_summary :=
       {| r_totalFiles := totalFiles s;
          r_processedFiles := processedFiles s;
          r_skippedFiles := skippedFiles s;
          r_errorFiles := errorFiles s;
          r_successRate :=
            if 0 <? totalFiles s
            then PctFixed1 (processedFiles s) (totalFiles s)
            else Num 0 |};
     r_origins := originCounts s;
     r_authors := size (authorCounts s);
     r_licenses := size (licenseCounts s);
     r_toolchains := size (toolchainCounts s);
     r_fileSize :=
       {| r_min := match sizeMin (sizeStats s) with None => 0 | Some v => v end;
          r_max := sizeMax (sizeStats s);
          r_average := avgSize;
          r_total := sizeTotal (sizeStats s) |};
     r_errors := errors s |}.

(** ** The file system and the clock *)

(** A node of the content tree, as [fs.statSync] and [fs.readdirSync] see
    it.  A directory lists its entries in the order [readdirSync] returns
    them. *)
#[local] Unset Elimination Schemes.
Inductive FsNode :=
| File (size : Z) (content : Result string)
      (* a non-directory; [content] is what [readFileSync] gives *)
| Directory (items : list (string * FsNode))
| UnreadableDir (e : JsError)       (* [readdirSync] throws *)
| Unstattable (e : JsError).        (* [statSync] throws, e.g. a dangling link *)
#[local] Set Elimination Schemes.

Record World := mkWorld {
  root : FsNode;                                (* the tree at [datasetPath] *)
  preexisting : gset string;                    (* other paths that exist at start *)
  mkdirError : string -> option JsError;        (* [mkdirSync] failures *)
  writeError : string -> option JsError;        (* [writeFileSync] failures *)
  now : string                                  (* [new Date().toISOString()] *)
}.

Record Stats := mkStat { isDirectory : bool; size : Z }.

Definition ENOENT : JsError := mkError "ENOENT: no such file or directory".
Definition ENOTDIR : JsError := mkError "ENOTDIR: not a directory".
Definition EISDIR : JsError := mkError "EISDIR: illegal operation on a directory".

Fixpoint lookup_entry (name : string) (items : list (string * FsNode)) : option FsNode :=
  match items with
  | [] => None
  | (n, node) :: rest => if String.eqb n name then Some node else lookup_entry name rest
  end.

Fixpoint walk (node : FsNode) (segs : list string) : option FsNode :=
  match segs with
  | [] => Some node
  | s :: rest =>
      match node with
      | Directory items =>
          match lookup_entry s items with
          | Some child => walk child rest
          | None => None
          end
      | _ => None
      end
  end.

Fixpoint strip_prefix (pre l : list string) : option (list string) :=
  match pre, l with
  | [], _ => Some l
  | x :: pre', y :: l' => if String.eqb x y then strip_prefix pre' l' else None
  | _ :: _, [] => None
  end.

(** The manifest object of [generateReports]. *)
Record QualityMetrics := mkQuality {
  integrityVerified : bool;
  metadataCompliant : bool;
  humanContentPercentage : JsNumber
}.

Record Manifest := mkManifest {
  version : string;
  generatedAt : string;
  configuration : Config;
  statistics : Summary;
  originDistribution : gmap string Z;
  qualityMetrics : QualityMetrics
}.

(** What was written under the output root; the two JSON documents are kept
    as the objects [JSON.stringify] was given. *)
Inductive FileData :=
| Bytes (content : string)
| ReportJson (report : Report)
| ManifestJson (manifest : Manifest).

(** The calls and the processing stages, in the order they happen. *)
Inductive Stage :=
| CheckFileSize | CheckExcludePatterns | ExtractMetadata
| ValidateMetadata | CheckOriginFilter | VerifyContentIntegrity.

Inductive Event :=
| At (s : Stage) (filePath : string)
| StatSync (p : string)
| ExistsSync (p : string)
| ReadFileSync (p : string)
| MkdirSync (p : string)
| WriteFileSync (p : string)
| CallParseXML
| CallHtmlExtractMetadata
| CallValidate
| CallVerifyIntegrity.

(** The mutable state of one process: the statistics object, the files and
    directories created so far, and the history of calls. *)
Record Machine := mkMachine {
  stats : DatasetStats;
  disk : gmap string FileData;
  dirs : gset string;
  trace : list Event
}.

Definition set_stats (s : DatasetStats) (m : Machine) : Machine :=
  {| stats := s; disk := disk m; dirs := dirs m; trace := trace m |}.

Definition log (tr : list Event) (m : Machine) : Machine :=
  {| stats := stats m; disk := disk m; dirs := dirs m; trace := trace m ++ tr |}.

(** ** A monad for state and exceptions *)

Definition M (A : Type) : Type := Machine -> Result A * Machine.

Definition ret {A} (a : A) : M A := fun m => (Ok a, m).

Definition bind {A B} (c : M A) (k : A -> M B) : M B :=
  fun m =>
    match c m with
    | (Ok a, m') => k a m'
    | (Throw e, m') => (Throw e, m')
    end.

(** [try { c } catch (error) { handler error }] *)
Definition try_catch {A} (c : M A) (handler : JsError -> M A) : M A :=
  fun m =>
    match c m with
    | (Ok a, m') => (Ok a, m')
    | (Throw e, m') => handler e m'
    end.

Definition lift {A} (r : Result A) : M A := fun m => (r, m).

Definition emit (e : Event) : M unit := fun m => (Ok tt, log [e] m).

Declare Scope js_scope.
Delimit Scope js_scope with js.
Notation "x <- c ;; k" := (bind c (fun x => k))
  (at level 100, c at next level, right associativity) : js_scope.
Notation "c ;; k" := (bind c (fun _ => k))
  (at level 100, right associativity) : js_scope.
Open Scope js_scope.

Fixpoint for_each {A} (f : A -> M unit) (l : list A) : M unit :=
  match l with
  | [] => ret tt
  | a :: rest => f a ;; for_each f rest
  end.

(** The statistics methods, on [this.stats]. *)
Definition stats_recordFile (metadata : option MetadataObject) (fileSize : Z)
    (status : string) : M unit :=
  fun m =>
    let '(r, s) := recordFile metadata fileSize status (stats m) in
    (r, set_stats s m).

Definition stats_recordError (file : string) (err : JsError) : M unit :=
  fun m => (Ok tt, set_stats (recordError file err (stats m)) m).

(** What [processFile] returns when it is not [null]. *)
Record Processed := mkProcessed {
  p_filePath : string;
  p_metadata : ContentMetadata;
  p_content : string
}.

Section Pipeline.

Context (CONFIG : Config) (w : World) `{MetadataLib}.

(** *** [fs] *)

(** The node of the content tree a path leads to. *)
Definition resolve (p : string) : option FsNode :=
  match strip_prefix (segments (datasetPath CONFIG)) (segments p) with
  | Some segs => walk (root w) segs
  | None => None
  end.

(** [fs.statSync(p)].  The size reported for a directory depends on the
    file system; no property below looks at it. *)
Definition statSync (p : string) : Result Stats :=
  match resolve p with
  | Some (File sz _) => Ok {| isDirectory := false; size := sz |}
  | Some (Directory _) | Some (UnreadableDir _) =>
      Ok {| isDirectory := true; size := 4096 |}
  | Some (Unstattable e) => Throw e
  | None => Throw ENOENT
  end.

(** [fs.readFileSync(p)], with or without ['utf8']: contents are byte
    strings. *)
Definition readFileSync (p : string) : Result string :=
  match resolve p with
  | Some (File _ content) => content
  | Some (Directory _) | Some (UnreadableDir _) => Throw EISDIR
  | Some (Unstattable e) => Throw e
  | None => Throw ENOENT
  end.

(** [fs.existsSync(p)]: the content tree, what existed beside it at the
    start, and what the run has created. *)
Definition existsSync (m : Machine) (p : string) : bool :=
  match resolve p with
  | Some (Unstattable _) | None =>
      bool_decide (p ∈ preexisting w) || bool_decide (p ∈ dirs m)
      || bool_decide (is_Some (disk m !! p))
  | Some _ => true
  end.

Definition fs_statSync (p : string) : M Stats :=
  emit (StatSync p) ;; lift (statSync p).

Definition fs_readFileSync (p : string) : M string :=
  emit (ReadFileSync p) ;; lift (readFileSync p).

Definition fs_existsSync (p : string) : M bool :=
  fun m => (Ok (existsSync m p), log [ExistsSync p] m).

(** [fs.mkdirSync(p, { recursive: true })] *)
Definition fs_mkdirSync (p : string) : M unit :=
  emit (MkdirSync p) ;;
  fun m =>
    match mkdirError w p with
    | Some e => (Throw e, m)
    | None => (Ok tt, {| stats := stats m; disk := disk m;
                         dirs := {[ p ]} ∪ dirs m; trace := trace m |})
    end.

Definition fs_writeFileSync (p : string) (data : FileData) : M unit :=
  emit (WriteFileSync p) ;;
  fun m =>
    match writeError w p with
    | Some e => (Throw e, m)
    | None => (Ok tt, {| stats := stats m; disk := <[p := data]> (disk m);
                         dirs := dirs m; trace := trace m |})
    end.

(** *** FileProcessor *)

(** [extractMetadata(filePath)].  Each [try] block either returns from the
    function ([Some] of the returned value) or falls through ([None]). *)
Definition extractMetadata (filePath : string) : M (option ContentMetadata) :=
  let sidecarPath := filePath +:+ ".meta.xml" in
  found <- fs_existsSync sidecarPath ;;
  fromSidecar <-
    (if found : bool then
       try_catch
         (xmlContent <- fs_readFileSync sidecarPath ;;
          emit CallParseXML ;;
          md <- lift (parseXML xmlContent) ;;
          ret (Some md))
         (fun _ => ret None)
     else ret None) ;;
  match fromSidecar with
  | Some returned => ret returned
  | None =>
      fromHtml <-
        (if endsWith filePath ".html" then
           try_catch
             (htmlContent <- fs_readFileSync filePath ;;
              emit CallHtmlExtractMetadata ;;
              md <- lift (html_extractMetadata htmlContent) ;;
              ret (Some md))
             (fun _ => ret None)
         else ret None) ;;
      match fromHtml with
      | Some returned => ret returned
      | None => ret None
      end
  end.

(** [processFile(filePath)] *)
Definition processFile (filePath : string) : M (option Processed) :=
  try_catch
    (let fileName := path_basename filePath in
     fileStats <- fs_statSync filePath ;;
     emit (At CheckFileSize filePath) ;;
     if size fileStats >? maxFileSize CONFIG then
       stats_recordFile None (size fileStats) "skipped" ;;
       ret None
     else
     emit (At CheckExcludePatterns filePath) ;;
     if existsb (fun pattern => includes fileName pattern) (excludePatterns CONFIG) then
       stats_recordFile None (size fileStats) "skipped" ;;
       ret None
     else
     emit (At ExtractMetadata filePath) ;;
     extracted <- extractMetadata filePath ;;
     match extracted with
     | None =>
         stats_recordFile None (size fileStats) "skipped" ;;
         ret None
     | Some metadata =>
         emit (At ValidateMetadata filePath) ;;
         emit CallValidate ;;
         let validation := validate metadata in
         if negb (isValid validation) then
           stats_recordError filePath
             (mkError ("Invalid metadata: " +:+ error validation)) ;;
           stats_recordFile None (size fileStats) "error" ;;
           ret None
         else
         emit (At CheckOriginFilter filePath) ;;
         if negb (array_includes (allowedOrigins CONFIG) (origin metadata)) then
           stats_recordFile None (size fileStats) "skipped" ;;
           ret None
         else
         emit (At VerifyContentIntegrity filePath) ;;
         content <- fs_readFileSync filePath ;;
         emit CallVerifyIntegrity ;;
         if negb (verifyIntegrity metadata content) then
           stats_recordError filePath (mkError "Content integrity check failed") ;;
           stats_recordFile None (size fileStats) "error" ;;
           ret (if strictMode CONFIG then None
                else Some {| p_filePath := filePath; p_metadata := metadata;
                             p_content := content |})
         else
         stats_recordFile (Some (toObject metadata)) (size fileStats) "processed" ;;
         ret (Some {| p_filePath := filePath; p_metadata := metadata;
                      p_content := content |})
     end)
    (fun error =>
       stats_recordError filePath error ;;
       stats_recordFile None 0 "error" ;;
       ret None).

End Pipeline.

Section MLPipeline.

Context (CONFIG : Config) (w : World) `{MetadataLib}.

(** [isProcessableFile(filename)] *)
Definition isProcessableFile (filename : string) : bool :=
  let extensions := [".txt"; ".md"; ".html"; ".json"] in
  existsb (fun ext => endsWith filename ext) extensions
  && negb (endsWith filename ".meta.xml").

(** [findFiles(directory)], on the node found at [directory].  The inner
    loop is the [for (const item of items)] with its [files] array. *)
Fixpoint findFiles (directory : string) (node : FsNode) {struct node}
    : Result (list string) :=
  match node with
  | Directory items =>
      (fix loop (items : list (string * FsNode)) (files : list string)
           {struct items} : Result (list string) :=
         match items with
         | [] => Ok files
         | (item, child) :: rest =>
             let fullPath := path_join directory item in
             match child with
             | Unstattable e => Throw e
             | File _ _ =>
                 if isProcessableFile item then loop rest (files ++ [fullPath])%list
                 else loop rest files
             | Directory _ | UnreadableDir _ =>
                 match findFiles fullPath child with
                 | Ok found => loop rest (files ++ found)%list
                 | Throw e => Throw e
                 end
             end
         end) items []
  | UnreadableDir e => Throw e
  | File _ _ => Throw ENOTDIR
  | Unstattable e => Throw e
  end.

(** The body of the loop of [copyCleanFiles], with its [try]/[catch]. *)
Definition copyCleanFile (file : Processed) : M unit :=
  try_catch
    (let relativePath := path_relative (datasetPath CONFIG) (p_filePath file) in
     let outputPath' := path_join (outputPath CONFIG) relativePath in
     let outputDir := path_dirname outputPath' in
     found <- fs_existsSync CONFIG w outputDir ;;
     (if found : bool then ret tt else fs_mkdirSync w outputDir) ;;
     fs_writeFileSync w outputPath' (Bytes (p_content file)) ;;
     let metadataPath := outputPath' +:+ ".meta.xml" in
     fs_writeFileSync w metadataPath (Bytes (toXML (p_metadata file))))
    (fun error => stats_recordError (p_filePath file) error).

(** [copyCleanFiles(processedFiles)] *)
Definition copyCleanFiles (processedFiles : list Processed) : M unit :=
  for_each copyCleanFile processedFiles.

Definition reportPath : string := path_join (outputPath CONFIG) "processing-report.json".
Definition manifestPath : string := path_join (outputPath CONFIG) "dataset-manifest.json".

(** [generateReports()] *)
Definition generateReports : M unit :=
  report <- (fun m => (Ok (getReport (stats m)), m)) ;;
  fs_writeFileSync w reportPath (ReportJson report) ;;
  let manifest :=
    {| version := "1.0";
       generatedAt := now w;
       configuration := CONFIG;
       statistics := r_summary report;
       originDistribution := r_origins report;
       qualityMetrics :=
         {| integrityVerified := true;
            metadataCompliant := true;
            humanContentPercentage :=
              PctFixed1 (default 0 (r_origins report !! "human"))
                        (r_processedFiles (r_summary report)) |} |} in
  fs_writeFileSync w manifestPath (ManifestJson manifest).

(** The loop of [run] over the discovered files. *)
Fixpoint processAll (files : list string) (processedFiles : list Processed)
    : M (list Processed) :=
  match files with
  | [] => ret processedFiles
  | file :: rest =>
      result <- processFile CONFIG w file ;;
      match result with
      | Some r => processAll rest (processedFiles ++ [r])%list
      | None => processAll rest processedFiles
      end
  end.

(** [run()] *)
Definition run : M unit :=
  found <- fs_existsSync CONFIG w (outputPath CONFIG) ;;
  (if found : bool then ret tt else fs_mkdirSync w (outputPath CONFIG)) ;;
  files <- lift (findFiles (datasetPath CONFIG) (root w)) ;;
  processedFiles <- processAll files [] ;;
  copyCleanFiles processedFiles ;;
  generateReports.

(** The state of a fresh process: [new MLPipeline()] builds the statistics
    object, nothing has been written yet. *)
Definition start : Machine :=
  {| stats := reset; disk := ∅; dirs := ∅; trace := [] |}.

(** The CLI execution: the exit status is 1 when [run()] rejects
    ([process.exit(1)] in the [catch] handler), 0 otherwise. *)
Definition main : Z * Machine :=
  match run start with
  | (Ok _, m) => (0, m)
  | (Throw _, m) => (1, m)
  end.

End MLPipeline.

(** ** A concrete library, configuration and content tree

    Used to run the definitions above on explicit inputs. *)
Module Sample.

Definition human_record (hash : string) : ContentMetadata :=
  {| origin := "human"; author := "Jane Smith"; license := Some "MIT";
     toolchain := None; contentHash := hash;
     validate := {| isValid := true; error := "" |};
     toXML := "<content_metadata><origin>human</origin></content_metadata>" |}.

Definition ai_record (hash : string) : ContentMetadata :=
  {| origin := "ai"; author := "GPT-4 API"; license := None;
     toolchain := Some "OpenAI GPT-4"; contentHash := hash;
     validate := {| isValid := true; error := "" |};
     toXML := "<content_metadata><origin>ai</origin></content_metadata>" |}.

Definition no_author_record (hash : string) : ContentMetadata :=
  {| origin := "human"; author := ""; license := None;
     toolchain := None; contentHash := hash;
     validate := {| isValid := false; error := "Missing required field: author" |};
     toXML := "<content_metadata><origin>human</origin></content_metadata>" |}.

(** A stand-in digest: injective, so that different contents never collide. *)
Definition digest (content : string) : string := "sha256:" +:+ content.

(** A stand-in sidecar syntax: [kind:hash]. *)
Definition parse (xml : string) : Result (option ContentMetadata) :=
  if String.prefix "human:" xml then
    Ok (Some (human_record (substring 6 (String.length xml) xml)))
  else if String.prefix "ai:" xml then
    Ok (Some (ai_record (substring 3 (String.length xml) xml)))
  else if String.prefix "noauthor:" xml then
    Ok (Some (no_author_record (substring 9 (String.length xml) xml)))
  else Throw (mkError "XML parse error").

Definition scan (html : string) : Result (option ContentMetadata) :=
  if includes html "<meta name=ai-content-origin content=human>" then
    Ok (Some (human_record (digest html)))
  else Ok None.

Definition lib : MetadataLib :=
  {| parseXML := parse; html_extractMetadata := scan; computeHash := digest |}.

Definition file (content : string) : FsNode :=
  File (Z.of_nat (String.length content)) (Ok content).

Definition config (strict : bool) : Config :=
  {| datasetPath := "dataset"; outputPath := "clean-dataset"; logLevel := "info";
     strictMode := strict; maxFileSize := 10 * 1024 * 1024;
     allowedOrigins := ["human"]; excludePatterns := [] |}.

Definition world_of (tree : FsNode) (failing : list string) : World :=
  {| root := tree; preexisting := ∅;
     mkdirError := fun _ => None;
     writeError := fun p =>
       if existsb (String.eqb p) failing
       then Some (mkError "EACCES: permission denied") else None;
     now := "2025-07-09T15:30:00.000Z" |}.

(** One intact human item, one item whose content was changed after
    tagging, one AI item, one item without metadata, one item whose sidecar
    lacks the author. *)
Definition tree : FsNode :=
  Directory
    [ ("a.txt", file "hello");
      ("a.txt.meta.xml", file "human:sha256:hello");
      ("b.txt", file "edited later");
      ("b.txt.meta.xml", file "human:sha256:as tagged");
      ("sub", Directory
         [ ("c.md", file "generated");
           ("c.md.meta.xml", file "ai:sha256:generated");
           ("d.json", file "{}") ]);
      ("e.txt", file "anonymous");
      ("e.txt.meta.xml", file "noauthor:sha256:anonymous");
      ("image.png", file "PNG") ].

Definition world : World := world_of tree [].

(** A directory whose listing is not in lexical order. *)
Definition unsorted_tree : FsNode :=
  Directory [ ("b.txt", file "second"); ("a.txt", file "first") ].

(** Only the tampered item. *)
Definition tampered_tree : FsNode :=
  Directory
    [ ("b.txt", file "edited later");
      ("b.txt.meta.xml", file "human:sha256:as tagged") ].


(** An item of 20 MiB, above the default threshold of 10 MiB. *)
Definition large_tree : FsNode :=
  Directory
    [ ("big.txt", File (20 * 1024 * 1024) (Ok "..."));
      ("big.txt.meta.xml", file "human:sha256:...") ].

(** Only the intact human item. *)
Definition clean_tree : FsNode :=
  Directory
    [ ("a.txt", file "hello");
      ("a.txt.meta.xml", file "human:sha256:hello") ].

(** An item whose sidecar does not parse. *)
Definition broken_sidecar_tree : FsNode :=
  Directory
    [ ("f.txt", file "plain text");
      ("f.txt.meta.xml", file "<content_metadata") ].

(** An entry on which [statSync] throws. *)
Definition dangling_tree : FsNode :=
  Directory
    [ ("a.txt", file "hello");
      ("gone.txt", Unstattable ENOENT) ].

(** An item with a good sidecar whose content cannot be read. *)
Definition unreadable_tree : FsNode :=
  Directory
    [ ("locked.txt", File 5 (Throw (mkError "EACCES: permission denied")));
      ("locked.txt.meta.xml", file "human:sha256:hello") ].

(** The sample configuration with one exclusion pattern. *)
Definition config_excluding (pattern : string) : Config :=
  {| datasetPath := "dataset"; outputPath := "clean-dataset"; logLevel := "info";
     strictMode := false; maxFileSize := 10 * 1024 * 1024;
     allowedOrigins := ["human"]; excludePatterns := [pattern] |}.

(** A world in which no directory can be created. *)
Definition read_only_world (tree : FsNode) : World :=
  {| root := tree; preexisting := ∅;
     mkdirError := fun _ => Some (mkError "EROFS: read-only file system");
     writeError := fun _ => Some (mkError "EROFS: read-only file system");
     now := "2025-07-09T15:30:00.000Z" |}.

End Sample.


(** ** Notions used to state the properties *)

(** The three statuses [recordFile] distinguishes. *)
Definition known_status (status : string) : Prop :=
  status = "processed" \/ status = "skipped" \/ status = "error".

(** The accounting identity of the counters. *)
Definition balanced (s : DatasetStats) : Prop :=
  totalFiles s = processedFiles s + skippedFiles s + errorFiles s.

(** One call of [recordFile]. *)
Record Call := mkCall {
  c_metadata : option MetadataObject;
  c_fileSize : Z;
  c_status : string
}.

(** The statistics after a sequence of [recordFile] calls. *)
Definition recordFiles (calls : list Call) (s : DatasetStats) : DatasetStats :=
  fold_left
    (fun s c => snd (recordFile (c_metadata c) (c_fileSize c) (c_status c) s))
    calls s.

(** Exactly one of the three outcome counters moved, by one. *)
Definition one_outcome_counted (status : string) (s s' : DatasetStats) : Prop :=
  (status = "processed" /\ processedFiles s' = processedFiles s + 1
     /\ skippedFiles s' = skippedFiles s /\ errorFiles s' = errorFiles s)
  \/ (status = "skipped" /\ processedFiles s' = processedFiles s
     /\ skippedFiles s' = skippedFiles s + 1 /\ errorFiles s' = errorFiles s)
  \/ (status = "error" /\ processedFiles s' = processedFiles s
     /\ skippedFiles s' = skippedFiles s /\ errorFiles s' = errorFiles s + 1).

(** The per-item outcome as the statistics show it. *)
Definition counted_skipped (fileSize : Z) (s : DatasetStats) : DatasetStats :=
  snd (recordFile None fileSize "skipped" s).

Definition counted_errored (file : string) (msg : string) (fileSize : Z)
    (s : DatasetStats) : DatasetStats :=
  snd (recordFile None fileSize "error" (recordError file (mkError msg) s)).

(** The value [extractMetadata(filePath)] resolves to in state [m]. *)
Definition extracts (CONFIG : Config) (w : World) `{MetadataLib}
    (filePath : string) (m : Machine) : option ContentMetadata :=
  match fst (extractMetadata CONFIG w filePath m) with
  | Ok returned => returned
  | Throw _ => None
  end.

(** The name-exclusion test of [processFile]. *)
Definition excluded (CONFIG : Config) (filePath : string) : bool :=
  existsb (fun pattern => includes (path_basename filePath) pattern)
          (excludePatterns CONFIG).

#[global] Instance Stage_eq_dec : EqDecision Stage.
Proof. solve_decision. Defined.

#[global] Instance Event_eq_dec : EqDecision Event.
Proof. solve_decision. Defined.

(** The stages a history went through, in order. *)
Fixpoint stages_of (tr : list Event) : list Stage :=
  match tr with
  | [] => []
  | At s _ :: rest => s :: stages_of rest
  | _ :: rest => stages_of rest
  end.

(** The order in which [processFile] goes through its stages. *)
Definition stage_order : list Stage :=
  [CheckFileSize; CheckExcludePatterns; ExtractMetadata;
   ValidateMetadata; CheckOriginFilter; VerifyContentIntegrity].


(** *** Discovery *)

(** Depth-first enumeration in listing order: the files of a directory entry
    stand where the entry stands among its siblings. *)
Fixpoint traverse (directory : string) (node : FsNode) {struct node} : list string :=
  match node with
  | Directory items =>
      flat_map
        (fun entry =>
           let fullPath := path_join directory (fst entry) in
           match snd entry with
           | File _ _ => if isProcessableFile (fst entry) then [fullPath] else []
           | _ => traverse fullPath (snd entry)
           end)
        items
  | _ => []
  end.

(** What one entry of a listing contributes to the enumeration. *)
Definition contribution (directory : string) (entry : string * FsNode) : list string :=
  let fullPath := path_join directory (fst entry) in
  match snd entry with
  | File _ _ => if isProcessableFile (fst entry) then [fullPath] else []
  | _ => traverse fullPath (snd entry)
  end.

(** The loop of [findFiles] on its own, with the [files] collected so far. *)
Definition findFiles_loop (directory : string)
    : list (string * FsNode) -> list string -> Result (list string) :=
  fix loop (items : list (string * FsNode)) (files : list string) {struct items} :=
    match items with
    | [] => Ok files
    | (item, child) :: rest =>
        let fullPath := path_join directory item in
        match child with
        | Unstattable e => Throw e
        | File _ _ =>
            if isProcessableFile item then loop rest (files ++ [fullPath])%list
            else loop rest files
        | Directory _ | UnreadableDir _ =>
            match findFiles fullPath child with
            | Ok found => loop rest (files ++ found)%list
            | Throw e => Throw e
            end
        end
    end.

(** On every node that is not a plain file, [findFiles] returns the
    enumeration. *)
Definition found_as_traversed (directory : string) (node : FsNode) : Prop :=
  match node with
  | File _ _ => True
  | _ => findFiles directory node = Ok (traverse directory node)
  end.

(** No directory of the tree fails to list, no entry fails to stat. *)
Fixpoint readable (node : FsNode) : bool :=
  match node with
  | File _ _ => true
  | Directory items => forallb (fun entry => readable (snd entry)) items
  | UnreadableDir _ | Unstattable _ => false
  end.

(** [entry_under dir node item p]: below the directory [node] at path [dir]
    there is a non-directory entry named [item], at path [p]. *)
Inductive entry_under : string -> FsNode -> string -> string -> Prop :=
| entry_here dir items item sz content :
    In (item, File sz content) items ->
    entry_under dir (Directory items) item (path_join dir item)
| entry_below dir items d sub item p :
    In (d, sub) items ->
    entry_under (path_join dir d) sub item p ->
    entry_under dir (Directory items) item p.

Fixpoint sorted_names (items : list (string * FsNode)) : bool :=
  match items with
  | [] => true
  | a :: rest =>
      match rest with
      | [] => true
      | b :: _ => String.leb (fst a) (fst b) && sorted_names rest
      end
  end.

(** Every directory of the tree lists its entries in lexical order. *)
Fixpoint lexical (node : FsNode) : bool :=
  match node with
  | Directory items =>
      sorted_names items && forallb (fun entry => lexical (snd entry)) items
  | _ => true
  end.

Fixpoint insert_entry (e : string * FsNode) (l : list (string * FsNode))
    : list (string * FsNode) :=
  match l with
  | [] => [e]
  | x :: rest =>
      if String.leb (fst e) (fst x) then e :: l else x :: insert_entry e rest
  end.

Definition sort_entries (l : list (string * FsNode)) : list (string * FsNode) :=
  fold_right insert_entry [] l.

(** The tree with every listing put in lexical order. *)
Fixpoint sort_tree (node : FsNode) : FsNode :=
  match node with
  | Directory items =>
      Directory (sort_entries (List.map (fun entry => (fst entry, sort_tree (snd entry))) items))
  | other => other
  end.

(** Discovery as the specification words it: depth-first, lexical order
    within a directory. *)
Definition discovery_spec (directory : string) (node : FsNode) : list string :=
  traverse directory (sort_tree node).

(** Lexical order of a list of paths. *)
Fixpoint sorted_paths (l : list string) : bool :=
  match l with
  | [] => true
  | a :: rest =>
      match rest with
      | [] => true
      | b :: _ => String.leb a b && sorted_paths rest
      end
  end.

(** *** Runs *)


Definition with_strictMode (b : bool) (c : Config) : Config :=
  {| datasetPath := datasetPath c; outputPath := outputPath c;
     logLevel := logLevel c; strictMode := b; maxFileSize := maxFileSize c;
     allowedOrigins := allowedOrigins c; excludePatterns := excludePatterns c |}.

(** [run()] up to the point where the reports are generated. *)
Definition run_items (CONFIG : Config) (w : World) `{MetadataLib} : M unit :=
  found <- fs_existsSync CONFIG w (outputPath CONFIG) ;;
  (if found : bool then ret tt else fs_mkdirSync w (outputPath CONFIG)) ;;
  files <- lift (findFiles (datasetPath CONFIG) (root w)) ;;
  processedFiles <- processAll CONFIG w files [] ;;
  copyCleanFiles CONFIG w processedFiles.

(** Where [copyCleanFiles] writes the content of a processed file. *)
Definition output_of (CONFIG : Config) (filePath : string) : string :=
  path_join (outputPath CONFIG) (path_relative (datasetPath CONFIG) filePath).

(** *** The decision [processFile] takes

    The tests of [processFile] in the order the code makes them, as a value:
    which test ended the processing of the item, and with what at hand. *)
Inductive Verdict :=
| StatFailed (e : JsError)
| TooLarge (st : Stats)
| Excluded (st : Stats)
| NoMetadata (st : Stats)
| Invalid (st : Stats) (md : ContentMetadata)
| Filtered (st : Stats) (md : ContentMetadata)
| Unreadable (st : Stats) (md : ContentMetadata) (e : JsError)
| Tampered (st : Stats) (md : ContentMetadata) (content : string)
| Accepted (st : Stats) (md : ContentMetadata) (content : string).

Definition verdict (CONFIG : Config) (w : World) `{MetadataLib}
    (filePath : string) (m : Machine) : Verdict :=
  match statSync CONFIG w filePath with
  | Throw e => StatFailed e
  | Ok st =>
      if size st >? maxFileSize CONFIG then TooLarge st
      else if excluded CONFIG filePath then Excluded st
      else match extracts CONFIG w filePath m with
           | None => NoMetadata st
           | Some md =>
               if negb (isValid (validate md)) then Invalid st md
               else if negb (array_includes (allowedOrigins CONFIG) (origin md))
               then Filtered st md
               else match readFileSync CONFIG w filePath with
                    | Throw e => Unreadable st md e
                    | Ok content =>
                        if negb (verifyIntegrity md content)
                        then Tampered st md content
                        else Accepted st md content
                    end
           end
  end.

Definition integrity_message : string := "Content integrity check failed".

(** The statistics each verdict leaves. *)
Definition verdict_stats (filePath : string) (v : Verdict) (s : DatasetStats)
    : DatasetStats :=
  match v with
  | StatFailed e => snd (recordFile None 0 "error" (recordError filePath e s))
  | TooLarge st | Excluded st | NoMetadata st | Filtered st _ =>
      counted_skipped (size st) s
  | Invalid st md =>
      counted_errored filePath ("Invalid metadata: " +:+ error (validate md)) (size st) s
  | Unreadable st md e => snd (recordFile None 0 "error" (recordError filePath e s))
  | Tampered st md content => counted_errored filePath integrity_message (size st) s
  | Accepted st md content =>
      snd (recordFile (Some (toObject md)) (size st) "processed" s)
  end.

(** What [processFile] returns for each verdict. *)
Definition verdict_result (CONFIG : Config) (filePath : string) (v : Verdict)
    : option Processed :=
  match v with
  | Tampered _ md content =>
      if strictMode CONFIG then None
      else Some {| p_filePath := filePath; p_metadata := md; p_content := content |}
  | Accepted _ md content =>
      Some {| p_filePath := filePath; p_metadata := md; p_content := content |}
  | _ => None
  end.

(** The status under which each verdict is counted. *)
Definition verdict_status (v : Verdict) : string :=
  match v with
  | TooLarge _ | Excluded _ | NoMetadata _ | Filtered _ _ => "skipped"
  | Accepted _ _ _ => "processed"
  | _ => "error"
  end.

(** The stages gone through before each verdict. *)
Definition verdict_stages (v : Verdict) : list Stage :=
  match v with
  | StatFailed _ => []
  | TooLarge _ => [CheckFileSize]
  | Excluded _ => [CheckFileSize; CheckExcludePatterns]
  | NoMetadata _ => [CheckFileSize; CheckExcludePatterns; ExtractMetadata]
  | Invalid _ _ =>
      [CheckFileSize; CheckExcludePatterns; ExtractMetadata; ValidateMetadata]
  | Filtered _ _ =>
      [CheckFileSize; CheckExcludePatterns; ExtractMetadata; ValidateMetadata;
       CheckOriginFilter]
  | Unreadable _ _ _ | Tampered _ _ _ | Accepted _ _ _ => stage_order
  end.

(** *** Further notions *)






(** From [s] to [s'] nothing changed but the error list, which got at most
    [limit] new entries at its end. *)
Definition appends_errors (limit : nat) (s s' : DatasetStats) : Prop :=
  totalFiles s' = totalFiles s
  /\ processedFiles s' = processedFiles s
  /\ skippedFiles s' = skippedFiles s
  /\ errorFiles s' = errorFiles s
  /\ originCounts s' = originCounts s
  /\ authorCounts s' = authorCounts s
  /\ licenseCounts s' = licenseCounts s
  /\ toolchainCounts s' = toolchainCounts s
  /\ sizeStats s' = sizeStats s
  /\ exists added,
       errors s' = (errors s ++ added)%list /\ (length added <= limit)%nat.

(** The sidecar route of [extractMetadata] does not return: there is no
    sidecar, or it cannot be read, or it does not parse. *)
Definition sidecar_fails (CONFIG : Config) (w : World) `{MetadataLib}
    (filePath : string) (m : Machine) : Prop :=
  existsSync CONFIG w m (filePath +:+ ".meta.xml") = false
  \/ (exists e, readFileSync CONFIG w (filePath +:+ ".meta.xml") = Throw e)
  \/ (exists xml e, readFileSync CONFIG w (filePath +:+ ".meta.xml") = Ok xml
                    /\ parseXML xml = Throw e).

(** What the embedded-metadata route of [extractMetadata] gives. *)
Definition embedded_route (CONFIG : Config) (w : World) `{MetadataLib}
    (filePath : string) : option ContentMetadata :=
  if endsWith filePath ".html" then
    match readFileSync CONFIG w filePath with
    | Ok html =>
        match html_extractMetadata html with
        | Ok returned => returned
        | Throw _ => None
        end
    | Throw _ => None
    end
  else None.

(** What holds of an item [processFile] returns. *)
Definition admissible (CONFIG : Config) (w : World) `{MetadataLib}
    (item : Processed) : Prop :=
  isValid (validate (p_metadata item)) = true
  /\ array_includes (allowedOrigins CONFIG) (origin (p_metadata item)) = true
  /\ readFileSync CONFIG w (p_filePath item) = Ok (p_content item)
  /\ (strictMode CONFIG = true ->
      computeHash (p_content item) = contentHash (p_metadata item)).

(** * Properties *)

(** ** DatasetStats *)

Lemma recordFile_total md fileSize status s :
  totalFiles (snd (recordFile md fileSize status s)) = totalFiles s + 1.
Proof.
  unfold recordFile.
  repeat (case (String.eqb status _)); try destruct md; reflexivity.
Qed.

Lemma recordFile_one_outcome md fileSize status s :
  known_status status ->
  one_outcome_counted status s (snd (recordFile md fileSize status s)).
Proof.
  intros [-> | [-> | ->]]; unfold one_outcome_counted.
  - left. destruct md; cbn; auto.
  - right; left. cbn; auto.
  - right; right. cbn; auto.
Qed.

Lemma recordFile_balanced md fileSize status s :
  known_status status ->
  balanced s -> balanced (snd (recordFile md fileSize status s)).
Proof.
  intros Hst Hb.
  pose proof (recordFile_total md fileSize status s) as Ht.
  destruct (recordFile_one_outcome md fileSize status s Hst)
    as [(_ & ? & ? & ?) | [(_ & ? & ? & ?) | (_ & ? & ? & ?)]];
    unfold balanced in *; lia.
Qed.

Lemma recordFiles_total calls : forall s,
  totalFiles (recordFiles calls s) = totalFiles s + Z.of_nat (length calls).
Proof.
  induction calls as [| c calls IH]; intros s; cbn [recordFiles fold_left length].
  - lia.
  - change (totalFiles (recordFiles calls
              (snd (recordFile (c_metadata c) (c_fileSize c) (c_status c) s)))
            = totalFiles s + Z.of_nat (S (length calls))).
    rewrite IH, recordFile_total. lia.
Qed.

Lemma recordFiles_snoc before c s :
  recordFiles (before ++ [c]) s
  = snd (recordFile (c_metadata c) (c_fileSize c) (c_status c) (recordFiles before s)).
Proof. unfold recordFiles. now rewrite fold_left_app. Qed.

Lemma recordFiles_balanced calls : forall s,
  Forall (fun c => known_status (c_status c)) calls ->
  balanced s -> balanced (recordFiles calls s).
Proof.
  induction calls as [| c calls IH]; intros s Hall Hb; [exact Hb |].
  inversion Hall; subst.
  apply IH; [assumption |]. now apply recordFile_balanced.
Qed.

Lemma recordError_counters file err s :
  totalFiles (recordError file err s) = totalFiles s
  /\ processedFiles (recordError file err s) = processedFiles s
  /\ skippedFiles (recordError file err s) = skippedFiles s
  /\ errorFiles (recordError file err s) = errorFiles s.
Proof. now repeat split. Qed.

(** ** FileProcessor *)

Section FileProcessorFacts.

Context (CONFIG : Config) (w : World) `{MetadataLib}.

Lemma log_log t1 t2 m : log t2 (log t1 m) = log (t1 ++ t2) m.
Proof. unfold log; cbn. now rewrite app_assoc. Qed.

Lemma existsSync_same_files m m' p :
  dirs m = dirs m' -> disk m = disk m' ->
  existsSync CONFIG w m p = existsSync CONFIG w m' p.
Proof. intros Hd Hk. unfold existsSync. now rewrite Hd, Hk. Qed.

Lemma stages_of_app t1 t2 : stages_of (t1 ++ t2) = (stages_of t1 ++ stages_of t2)%list.
Proof.
  induction t1 as [| e t1 IH]; [reflexivity |].
  destruct e; cbn; now rewrite ?IH.
Qed.

Ltac run_monad :=
  cbv [bind ret lift emit try_catch fs_statSync fs_readFileSync
       fs_existsSync fs_mkdirSync fs_writeFileSync stats_recordError
       stats_recordFile].

(** [extractMetadata] never throws, changes nothing but the history, and
    goes through no stage of [processFile]. *)
Lemma extractMetadata_runs filePath m :
  exists tr,
    extractMetadata CONFIG w filePath m
    = (Ok (extracts CONFIG w filePath m), log tr m)
    /\ stages_of tr = [].
Proof.
  unfold extracts, extractMetadata. run_monad.
  destruct (existsSync CONFIG w m (filePath +:+ ".meta.xml")).
  - destruct (readFileSync CONFIG w (filePath +:+ ".meta.xml")) as [xml | e].
    + destruct (parseXML xml) as [md | e].
      * cbn. rewrite !log_log. eexists; split; [reflexivity | reflexivity].
      * destruct (endsWith filePath ".html").
        -- destruct (readFileSync CONFIG w filePath) as [html | e'].
           ++ destruct (html_extractMetadata html) as [md | e'];
                cbn; rewrite !log_log; eexists; split; reflexivity.
           ++ cbn; rewrite !log_log; eexists; split; reflexivity.
        -- cbn; rewrite !log_log; eexists; split; reflexivity.
    + destruct (endsWith filePath ".html").
      * destruct (readFileSync CONFIG w filePath) as [html | e'].
        -- destruct (html_extractMetadata html) as [md | e'];
             cbn; rewrite !log_log; eexists; split; reflexivity.
        -- cbn; rewrite !log_log; eexists; split; reflexivity.
      * cbn; rewrite !log_log; eexists; split; reflexivity.
  - destruct (endsWith filePath ".html").
    + destruct (readFileSync CONFIG w filePath) as [html | e'].
      * destruct (html_extractMetadata html) as [md | e'];
          cbn; rewrite !log_log; eexists; split; reflexivity.
      * cbn; rewrite !log_log; eexists; split; reflexivity.
    + cbn; eexists; split; reflexivity.
Qed.

Lemma extracts_same_files filePath m m' :
  dirs m = dirs m' -> disk m = disk m' ->
  extracts CONFIG w filePath m = extracts CONFIG w filePath m'.
Proof.
  intros Hd Hk. unfold extracts, extractMetadata. run_monad.
  rewrite (existsSync_same_files m m' _ Hd Hk).
  destruct (existsSync CONFIG w m' (filePath +:+ ".meta.xml"));
    [destruct (readFileSync CONFIG w (filePath +:+ ".meta.xml")) as [xml | e];
       [destruct (parseXML xml); [reflexivity |] |] |];
    (destruct (endsWith filePath ".html"); [| reflexivity]);
    (destruct (readFileSync CONFIG w filePath) as [html | e']; [| reflexivity]);
    destruct (html_extractMetadata html); reflexivity.
Qed.

Lemma extracts_log filePath tr m :
  extracts CONFIG w filePath (log tr m) = extracts CONFIG w filePath m.
Proof. now apply extracts_same_files. Qed.

(** [processFile] never throws; what it returns, the statistics it leaves
    and the stages it went through are those of its verdict; it writes
    nothing. *)
Lemma processFile_verdict filePath m :
  exists tr,
    processFile CONFIG w filePath m
    = (Ok (verdict_result CONFIG filePath (verdict CONFIG w filePath m)),
       set_stats (verdict_stats filePath (verdict CONFIG w filePath m) (stats m))
                 (log tr m))
    /\ stages_of tr = verdict_stages (verdict CONFIG w filePath m).
Proof.
  unfold processFile, verdict, excluded. run_monad.
  destruct (statSync CONFIG w filePath) as [st | e].
  2:{ cbn. eexists; split; reflexivity. }
  destruct (size st >? maxFileSize CONFIG).
  { cbn. rewrite !log_log. eexists; split; reflexivity. }
  destruct (existsb _ (excludePatterns CONFIG)).
  { cbn. rewrite !log_log. eexists; split; reflexivity. }
  rewrite !log_log.
  destruct (extractMetadata_runs filePath
              (log ([StatSync filePath; At CheckFileSize filePath;
                     At CheckExcludePatterns filePath;
                     At ExtractMetadata filePath]) m)) as (tr & Heq & Hst).
  cbn [app] in *. rewrite Heq, extracts_log. clear Heq.
  destruct (extracts CONFIG w filePath m) as [md |].
  2:{ cbn. rewrite !log_log. eexists; split; [reflexivity |].
      rewrite stages_of_app, Hst. reflexivity. }
  destruct (isValid (validate md)).
  2:{ cbn. rewrite !log_log. eexists; split; [reflexivity |].
      rewrite !stages_of_app, Hst. reflexivity. }
  destruct (array_includes (allowedOrigins CONFIG) (origin md)).
  2:{ cbn. rewrite !log_log. eexists; split; [reflexivity |].
      rewrite !stages_of_app, Hst. reflexivity. }
  cbn [negb].
  destruct (readFileSync CONFIG w filePath) as [content | e].
  2:{ cbn. rewrite !log_log. eexists; split; [reflexivity |].
      rewrite !stages_of_app, Hst. reflexivity. }
  destruct (verifyIntegrity md content).
  - cbn. rewrite !log_log. eexists; split; [reflexivity |].
    rewrite !stages_of_app, Hst. reflexivity.
  - cbn. rewrite !log_log. eexists; split; [reflexivity |].
    rewrite !stages_of_app, Hst. reflexivity.
Qed.

End FileProcessorFacts.

Section VerdictFacts.

Context (CONFIG : Config) (w : World) `{MetadataLib}.

Lemma processFile_returns filePath m :
  fst (processFile CONFIG w filePath m)
  = Ok (verdict_result CONFIG filePath (verdict CONFIG w filePath m)).
Proof. destruct (processFile_verdict CONFIG w filePath m) as (tr & -> & _). reflexivity. Qed.

Lemma processFile_stats filePath m :
  stats (snd (processFile CONFIG w filePath m))
  = verdict_stats filePath (verdict CONFIG w filePath m) (stats m).
Proof. destruct (processFile_verdict CONFIG w filePath m) as (tr & -> & _). reflexivity. Qed.

Lemma processFile_writes_nothing filePath m :
  disk (snd (processFile CONFIG w filePath m)) = disk m
  /\ dirs (snd (processFile CONFIG w filePath m)) = dirs m.
Proof. destruct (processFile_verdict CONFIG w filePath m) as (tr & -> & _). now split. Qed.

Lemma verdict_stats_once filePath v s :
  totalFiles (verdict_stats filePath v s) = totalFiles s + 1
  /\ known_status (verdict_status v)
  /\ one_outcome_counted (verdict_status v) s (verdict_stats filePath v s).
Proof.
  unfold known_status, one_outcome_counted.
  destruct v; cbn; repeat split; auto 10.
Qed.

End VerdictFacts.

(** C7.  After any sequence of [recordFile] calls with status processed,
    skipped or error, [totalFiles = processedFiles + skippedFiles +
    errorFiles]; each call adds one to [totalFiles] and one to exactly one
    of the three outcome counters; and [processFile] counts every item once,
    whatever its outcome. *)
Theorem recordFile_accounting (calls : list Call) :
  Forall (fun c => known_status (c_status c)) calls ->
  balanced (recordFiles calls reset)
  /\ totalFiles (recordFiles calls reset) = Z.of_nat (length calls)
  /\ (forall before c after,
        calls = (before ++ c :: after)%list ->
        totalFiles (recordFiles (before ++ [c]) reset)
        = totalFiles (recordFiles before reset) + 1
        /\ one_outcome_counted (c_status c)
             (recordFiles before reset) (recordFiles (before ++ [c]) reset))
  /\ (forall CONFIG w (lib : MetadataLib) filePath m,
        let s' := stats (snd (processFile CONFIG w filePath m)) in
        totalFiles s' = totalFiles (stats m) + 1
        /\ exists status,
             known_status status /\ one_outcome_counted status (stats m) s').
Proof.
  intros Hall. split; [| split; [| split]].
  - apply recordFiles_balanced; [assumption | reflexivity].
  - rewrite recordFiles_total. reflexivity.
  - intros before c after ->.
    rewrite recordFiles_snoc.
    split; [apply recordFile_total |].
    apply recordFile_one_outcome.
    apply Forall_app in Hall as [_ Hall]. now inversion Hall.
  - intros CONFIG w lib filePath m s'. subst s'.
    rewrite processFile_stats.
    destruct (verdict_stats_once filePath (verdict CONFIG w filePath m) (stats m))
      as (Ht & Hk & Ho).
    split; [exact Ht |]. eexists; split; eassumption.
Qed.

Section Items.

Context (CONFIG : Config) (w : World) `{MetadataLib}.

Lemma not_too_large st :
  size st <= maxFileSize CONFIG -> (size st >? maxFileSize CONFIG) = false.
Proof. intros Hle. destruct (Z.gtb_spec (size st) (maxFileSize CONFIG)); [lia | reflexivity]. Qed.

(** The verdict on an item that passes the size and name tests and has
    metadata. *)
Lemma verdict_with_metadata filePath m st md :
  statSync CONFIG w filePath = Ok st ->
  size st <= maxFileSize CONFIG ->
  excluded CONFIG filePath = false ->
  extracts CONFIG w filePath m = Some md ->
  verdict CONFIG w filePath m
  = if negb (isValid (validate md)) then Invalid st md
    else if negb (array_includes (allowedOrigins CONFIG) (origin md))
    then Filtered st md
    else match readFileSync CONFIG w filePath with
         | Throw e => Unreadable st md e
         | Ok content =>
             if negb (verifyIntegrity md content)
             then Tampered st md content
             else Accepted st md content
         end.
Proof.
  intros Hstat Hsize Hexcl Hext. unfold verdict.
  now rewrite Hstat, (not_too_large st Hsize), Hexcl, Hext.
Qed.

Lemma processAll_step filePath rest acc m :
  processAll CONFIG w (filePath :: rest) acc m
  = match verdict_result CONFIG filePath (verdict CONFIG w filePath m) with
    | Some r =>
        processAll CONFIG w rest (acc ++ [r]) (snd (processFile CONFIG w filePath m))
    | None => processAll CONFIG w rest acc (snd (processFile CONFIG w filePath m))
    end.
Proof.
  cbn [processAll]. unfold bind at 1.
  pose proof (processFile_returns CONFIG w filePath m) as Hr.
  destruct (processFile CONFIG w filePath m) as [r m']; cbn [fst snd] in *.
  rewrite Hr. now destruct (verdict_result CONFIG filePath _).
Qed.

Lemma length_append (s t : string) :
  String.length (s +:+ t) = (String.length s + String.length t)%nat.
Proof.
  induction s as [| c s IH]; [reflexivity |].
  change (S (String.length (s +:+ t)) = S (String.length s + String.length t)%nat).
  now rewrite IH.
Qed.

Lemma sidecar_path_differs (p : string) : p +:+ ".meta.xml" <> p.
Proof.
  intros Heq. apply (f_equal String.length) in Heq.
  rewrite length_append in Heq. cbn in Heq. lia.
Qed.


(** [copyCleanFile] never throws and touches no counter: it leaves the
    statistics alone or appends one error entry. *)
Lemma copyCleanFile_stats file m :
  fst (copyCleanFile CONFIG w file m) = Ok tt
  /\ (stats (snd (copyCleanFile CONFIG w file m)) = stats m
      \/ exists e, stats (snd (copyCleanFile CONFIG w file m))
                   = recordError (p_filePath file) e (stats m)).
Proof.
  unfold copyCleanFile.
  cbv [bind ret lift emit try_catch fs_existsSync fs_mkdirSync
       fs_writeFileSync stats_recordError].
  destruct (existsSync CONFIG w m _);
    repeat match goal with
           | |- context [match mkdirError w ?p with _ => _ end] =>
               destruct (mkdirError w p)
           | |- context [match writeError w ?p with _ => _ end] =>
               destruct (writeError w p)
           end; cbn; split; eauto.
Qed.

End Items.

(** C5.  An item whose size exceeds [maxFileSize] is counted as skipped and
    [processFile] returns [null]; the only calls made are the [statSync] and
    the size test: no read, no existence test of a sidecar, no parse. *)
Theorem oversized_item_skipped_unread
    (CONFIG : Config) (w : World) (lib : MetadataLib)
    (filePath : string) (m : Machine) (st : Stats) :
  statSync CONFIG w filePath = Ok st ->
  size st > maxFileSize CONFIG ->
  let m' := snd (processFile CONFIG w filePath m) in
  fst (processFile CONFIG w filePath m) = Ok None
  /\ trace m' = (trace m ++ [StatSync filePath; At CheckFileSize filePath])%list
  /\ stats m' = counted_skipped (size st) (stats m)
  /\ skippedFiles (stats m') = skippedFiles (stats m) + 1
  /\ processedFiles (stats m') = processedFiles (stats m)
  /\ errorFiles (stats m') = errorFiles (stats m)
  /\ errors (stats m') = errors (stats m)
  /\ disk m' = disk m.
Proof.
  intros Hstat Hsize m'. subst m'.
  assert ((size st >? maxFileSize CONFIG) = true) as Hgt by (apply Z.gtb_lt; lia).
  unfold processFile.
  cbv [bind ret lift emit try_catch fs_statSync stats_recordFile].
  rewrite Hstat, Hgt. cbn. rewrite <- app_assoc. repeat split; reflexivity.
Qed.

(** C4.  For an item that reaches extraction: when extraction gives [null]
    the item is counted as skipped and no error is recorded; when it gives a
    record that fails [validate()] the item is counted as an error, not as
    skipped, and the pair of the item and the violation is appended to the
    error list. *)
Theorem absent_and_malformed_metadata_differ
    (CONFIG : Config) (w : World) (lib : MetadataLib)
    (filePath : string) (m : Machine) (st : Stats) :
  statSync CONFIG w filePath = Ok st ->
  size st <= maxFileSize CONFIG ->
  excluded CONFIG filePath = false ->
  let m' := snd (processFile CONFIG w filePath m) in
  (extracts CONFIG w filePath m = None ->
     fst (processFile CONFIG w filePath m) = Ok None
     /\ skippedFiles (stats m') = skippedFiles (stats m) + 1
     /\ errorFiles (stats m') = errorFiles (stats m)
     /\ processedFiles (stats m') = processedFiles (stats m)
     /\ errors (stats m') = errors (stats m))
  /\ (forall md,
        extracts CONFIG w filePath m = Some md ->
        isValid (validate md) = false ->
        fst (processFile CONFIG w filePath m) = Ok None
        /\ errorFiles (stats m') = errorFiles (stats m) + 1
        /\ skippedFiles (stats m') = skippedFiles (stats m)
        /\ processedFiles (stats m') = processedFiles (stats m)
        /\ errors (stats m')
           = (errors (stats m)
              ++ [ {| e_file := filePath;
                      e_error := "Invalid metadata: " +:+ error (validate md) |} ])%list).
Proof.
  intros Hstat Hsize Hexcl m'. subst m'.
  rewrite processFile_returns, processFile_stats. split.
  - intros Hext.
    assert (verdict CONFIG w filePath m = NoMetadata st) as ->.
    { unfold verdict. now rewrite Hstat, (not_too_large CONFIG st Hsize), Hexcl, Hext. }
    cbn. repeat split; reflexivity.
  - intros md Hext Hinv.
    rewrite (verdict_with_metadata CONFIG w filePath m st md Hstat Hsize Hexcl Hext).
    rewrite Hinv. cbn. repeat split; reflexivity.
Qed.

(** C6.  An item with valid metadata whose origin is not among
    [allowedOrigins] is counted as skipped and [processFile] returns [null],
    whatever the size threshold, the exclusion patterns, the strict-mode flag
    and the state of its content. *)
Theorem disallowed_origin_rejected
    (CONFIG : Config) (w : World) (lib : MetadataLib)
    (filePath : string) (m : Machine) (st : Stats) (md : ContentMetadata) :
  statSync CONFIG w filePath = Ok st ->
  extracts CONFIG w filePath m = Some md ->
  isValid (validate md) = true ->
  array_includes (allowedOrigins CONFIG) (origin md) = false ->
  let m' := snd (processFile CONFIG w filePath m) in
  fst (processFile CONFIG w filePath m) = Ok None
  /\ stats m' = counted_skipped (size st) (stats m)
  /\ skippedFiles (stats m') = skippedFiles (stats m) + 1
  /\ processedFiles (stats m') = processedFiles (stats m)
  /\ errorFiles (stats m') = errorFiles (stats m)
  /\ errors (stats m') = errors (stats m)
  /\ disk m' = disk m.
Proof.
  intros Hstat Hext Hvalid Horigin m'. subst m'.
  rewrite processFile_returns, processFile_stats.
  destruct (processFile_writes_nothing CONFIG w filePath m) as [-> _].
  assert (verdict CONFIG w filePath m = TooLarge st
          \/ verdict CONFIG w filePath m = Excluded st
          \/ verdict CONFIG w filePath m = Filtered st md) as Hv.
  { unfold verdict. rewrite Hstat.
    destruct (size st >? maxFileSize CONFIG); [now left |].
    destruct (excluded CONFIG filePath); [now right; left |].
    rewrite Hext, Hvalid, Horigin. now right; right. }
  destruct Hv as [-> | [-> | ->]]; cbn; repeat split; reflexivity.
Qed.



(** ** Discovery *)

(** Induction on the content tree, with the hypothesis for every entry of a
    directory. *)
Lemma FsNode_ind (P : FsNode -> Prop) :
  (forall sz content, P (File sz content)) ->
  (forall items, Forall (fun entry => P (snd entry)) items -> P (Directory items)) ->
  (forall e, P (UnreadableDir e)) ->
  (forall e, P (Unstattable e)) ->
  forall node, P node.
Proof.
  intros HF HD HU HS.
  exact (fix go (node : FsNode) : P node :=
           match node with
           | File sz content => HF sz content
           | Directory items =>
               HD items
                  ((fix all (l : list (string * FsNode))
                      : Forall (fun entry => P (snd entry)) l :=
                      match l with
                      | [] => @List.Forall_nil _ _
                      | entry :: rest =>
                          @List.Forall_cons _ _ entry rest (go (snd entry)) (all rest)
                      end) items)
           | UnreadableDir e => HU e
           | Unstattable e => HS e
           end).
Qed.

Lemma findFiles_unfold directory items :
  findFiles directory (Directory items) = findFiles_loop directory items [].
Proof. reflexivity. Qed.

Lemma traverse_unfold directory items :
  traverse directory (Directory items) = flat_map (contribution directory) items.
Proof. reflexivity. Qed.

Lemma findFiles_loop_traverse directory items :
  Forall (fun entry =>
            forall dir, readable (snd entry) = true ->
                        found_as_traversed dir (snd entry)) items ->
  forallb (fun entry => readable (snd entry)) items = true ->
  forall files,
    findFiles_loop directory items files
    = Ok (files ++ flat_map (contribution directory) items)%list.
Proof.
  induction 1 as [| [item child] rest Hchild _ IH]; intros Hread files.
  - cbn. now rewrite app_nil_r.
  - cbn [forallb snd] in Hread. apply andb_prop in Hread as [Hc Hrest].
    change (findFiles_loop directory ((item, child) :: rest) files)
      with (let fullPath := path_join directory item in
            match child with
            | Unstattable e => Throw e
            | File _ _ =>
                if isProcessableFile item
                then findFiles_loop directory rest (files ++ [fullPath])%list
                else findFiles_loop directory rest files
            | Directory _ | UnreadableDir _ =>
                match findFiles fullPath child with
                | Ok found => findFiles_loop directory rest (files ++ found)%list
                | Throw e => Throw e
                end
            end).
    cbn [flat_map]. unfold contribution at 1. cbn [fst snd] in *.
    specialize (Hchild (path_join directory item) Hc).
    unfold found_as_traversed in Hchild.
    destruct child as [sz content | sub | e | e]; try discriminate Hc.
    + destruct (isProcessableFile item); rewrite (IH Hrest).
      * now rewrite <- app_assoc.
      * reflexivity.
    + rewrite Hchild, (IH Hrest). now rewrite <- app_assoc.
Qed.

Lemma findFiles_traverse node :
  forall directory, readable node = true -> found_as_traversed directory node.
Proof.
  induction node as [sz content | items IH | e | e] using FsNode_ind;
    intros directory Hread; try discriminate Hread; [exact I |].
  unfold found_as_traversed. rewrite findFiles_unfold, traverse_unfold.
  now rewrite (findFiles_loop_traverse directory items IH Hread []).
Qed.

Lemma traverse_complete node :
  forall directory p,
    In p (traverse directory node)
    <-> exists item, entry_under directory node item p
                     /\ isProcessableFile item = true.
Proof.
  induction node as [sz content | items IH | e | e] using FsNode_ind;
    intros directory p;
    try (split; [intros [] | intros (item & Hu & _); inversion Hu]).
  rewrite traverse_unfold, in_flat_map. split.
  - intros ([item child] & Hin & Hp).
    rewrite List.Forall_forall in IH. specialize (IH _ Hin). cbn [snd] in IH.
    unfold contribution in Hp. cbn [fst snd] in Hp.
    destruct child as [sz content | sub | e | e].
    + destruct (isProcessableFile item) eqn:Hproc; [| destruct Hp].
      destruct Hp as [<- | []]. exists item. split; [| exact Hproc].
      eapply entry_here; eassumption.
    + apply IH in Hp as (name & Hu & Hproc). exists name. split; [| exact Hproc].
      eapply entry_below; eassumption.
    + destruct Hp.
    + destruct Hp.
  - intros (name & Hu & Hproc). inversion Hu as [? ? ? sz content Hin | ? ? d sub ? ? Hin Hsub]; subst.
    + exists (name, File sz content). split; [exact Hin |].
      unfold contribution; cbn [fst snd]. rewrite Hproc. now left.
    + exists (d, sub). split; [exact Hin |].
      rewrite List.Forall_forall in IH. specialize (IH _ Hin). cbn [snd] in IH.
      unfold contribution; cbn [fst snd].
      destruct sub; try (inversion Hsub; fail).
      apply IH. exists name. now split.
Qed.

Lemma insert_entry_head e l :
  sorted_names (e :: l) = true -> insert_entry e l = e :: l.
Proof.
  destruct l as [| x rest]; [reflexivity |].
  cbn. intros Hs. apply andb_prop in Hs as [-> _]. reflexivity.
Qed.

Lemma sorted_names_tail e l : sorted_names (e :: l) = true -> sorted_names l = true.
Proof.
  destruct l as [| x rest]; [reflexivity |].
  intros Hs. change (String.leb (fst e) (fst x) && sorted_names (x :: rest) = true) in Hs.
  now apply andb_prop in Hs as [_ Hs].
Qed.

Lemma sort_entries_sorted l : sorted_names l = true -> sort_entries l = l.
Proof.
  induction l as [| e l IH]; intros Hs; [reflexivity |].
  cbn [sort_entries fold_right]. fold (sort_entries l).
  rewrite (IH (sorted_names_tail e l Hs)). now apply insert_entry_head.
Qed.

Lemma sort_tree_lexical node : lexical node = true -> sort_tree node = node.
Proof.
  induction node as [sz content | items IH | e | e] using FsNode_ind;
    intros Hlex; try reflexivity.
  cbn [lexical] in Hlex. apply andb_prop in Hlex as [Hs Hall].
  cbn [sort_tree].
  assert (List.map (fun entry => (fst entry, sort_tree (snd entry))) items = items) as ->.
  { clear Hs. induction IH as [| [item child] rest Hchild _ IHrest]; [reflexivity |].
    cbn [forallb snd] in Hall. apply andb_prop in Hall as [Hc Hrest].
    cbn [List.map fst snd] in *. now rewrite (Hchild Hc), (IHrest Hrest). }
  now rewrite (sort_entries_sorted items Hs).
Qed.

(** C8, as the code has it.  On a tree that can be listed, [findFiles]
    returns exactly the paths of the non-directory entries below the root
    whose name has one of the four content extensions and not the sidecar
    suffix, depth-first, each directory in the order its listing has (the
    code does not sort); when every listing is in lexical order, that is the
    lexical enumeration. *)
Theorem discovery_in_listing_order
    (directory : string) (items : list (string * FsNode)) :
  readable (Directory items) = true ->
  findFiles directory (Directory items) = Ok (traverse directory (Directory items))
  /\ (forall p,
        In p (traverse directory (Directory items))
        <-> exists item, entry_under directory (Directory items) item p
                         /\ isProcessableFile item = true)
  /\ (forall item,
        isProcessableFile item = true
        <-> (endsWith item ".txt" = true \/ endsWith item ".md" = true
             \/ endsWith item ".html" = true \/ endsWith item ".json" = true)
            /\ endsWith item ".meta.xml" = false)
  /\ (lexical (Directory items) = true ->
        traverse directory (Directory items)
        = discovery_spec directory (Directory items)).
Proof.
  intros Hread. split; [| split; [| split]].
  - exact (findFiles_traverse (Directory items) directory Hread).
  - intros p. apply traverse_complete.
  - intros item. unfold isProcessableFile. cbn [existsb].
    destruct (endsWith item ".txt"), (endsWith item ".md"),
      (endsWith item ".html"), (endsWith item ".json"),
      (endsWith item ".meta.xml"); cbn; intuition congruence.
  - intros Hlex. unfold discovery_spec. now rewrite (sort_tree_lexical _ Hlex).
Qed.

(** ** Runs *)

Section RunFacts.

Context (CONFIG : Config) (w : World) `{MetadataLib}.

Lemma processAll_returns files : forall acc m,
  exists l, fst (processAll CONFIG w files acc m) = Ok l.
Proof.
  induction files as [| file rest IH]; intros acc m.
  - exists acc. reflexivity.
  - rewrite processAll_step.
    destruct (verdict_result CONFIG file _); apply IH.
Qed.

Lemma copyCleanFiles_returns l : forall m,
  fst (copyCleanFiles CONFIG w l m) = Ok tt.
Proof.
  induction l as [| file rest IH]; intros m; [reflexivity |].
  unfold copyCleanFiles in *. cbn [for_each]. unfold bind at 1.
  destruct (copyCleanFile_stats CONFIG w file m) as [Hok _].
  destruct (copyCleanFile CONFIG w file m) as [r m']; cbn [fst] in Hok.
  rewrite Hok. apply IH.
Qed.

(** [run] is the item phase followed by the reports. *)
Lemma run_split m :
  run CONFIG w m
  = match run_items CONFIG w m with
    | (Ok _, m') => generateReports CONFIG w m'
    | (Throw e, m') => (Throw e, m')
    end.
Proof.
  unfold run, run_items, bind.
  destruct (fs_existsSync CONFIG w (outputPath CONFIG) m) as [[found | e] m1];
    [| reflexivity].
  destruct ((if found then ret tt else fs_mkdirSync w (outputPath CONFIG)) m1)
    as [[[] | e] m2]; [| reflexivity].
  destruct (lift (findFiles (datasetPath CONFIG) (root w)) m2) as [[files | e] m3];
    [| reflexivity].
  destruct (processAll CONFIG w files [] m3) as [[processed | e] m4];
    [| reflexivity].
  destruct (copyCleanFiles CONFIG w processed m4) as [[[] | e] m5]; reflexivity.
Qed.

(** The item phase fails only on the output root or on discovery. *)
Lemma run_items_returns m :
  (exists u, fst (run_items CONFIG w m) = Ok u)
  <-> (existsSync CONFIG w m (outputPath CONFIG) = true
       \/ mkdirError w (outputPath CONFIG) = None)
      /\ exists files, findFiles (datasetPath CONFIG) (root w) = Ok files.
Proof.
  unfold run_items.
  cbv [bind ret lift emit fs_existsSync fs_mkdirSync].
  destruct (existsSync CONFIG w m (outputPath CONFIG));
    [| destruct (mkdirError w (outputPath CONFIG)) as [e |]].
  2:{ cbn. split; [intros [u Hu]; discriminate Hu |].
      intros [[Hx | Hx] _]; discriminate Hx. }
  all: destruct (findFiles (datasetPath CONFIG) (root w)) as [files | e];
    [| cbn; split; [intros [u Hu]; discriminate Hu
                   | intros [_ [files Hf]]; discriminate Hf]].
  all: match goal with
       | |- context [processAll CONFIG w ?fs [] ?m0] =>
           destruct (processAll_returns fs [] m0) as [l Hl];
           destruct (processAll CONFIG w fs [] m0) as [r m1];
           cbn [fst] in Hl; rewrite Hl;
           pose proof (copyCleanFiles_returns l m1) as Hc;
           destruct (copyCleanFiles CONFIG w l m1) as [r' m2];
           cbn [fst] in Hc; rewrite Hc
       end.
  all: cbn; split; eauto.
Qed.

Lemma generateReports_returns m :
  (exists u, fst (generateReports CONFIG w m) = Ok u)
  <-> writeError w (reportPath CONFIG) = None
      /\ writeError w (manifestPath CONFIG) = None.
Proof.
  unfold generateReports.
  cbv [bind ret lift emit fs_writeFileSync].
  destruct (writeError w (reportPath CONFIG)) as [e |];
    [| destruct (writeError w (manifestPath CONFIG)) as [e |]]; cbn.
  - split; [intros [u Hu]; discriminate Hu | intros [Hx _]; discriminate Hx].
  - split; [intros [u Hu]; discriminate Hu | intros [_ Hx]; discriminate Hx].
  - split; eauto.
Qed.

(** The exit status is 0 exactly when no run-level step fails. *)
Lemma main_status :
  (fst (main CONFIG w) = 0 \/ fst (main CONFIG w) = 1)
  /\ (fst (main CONFIG w) = 0
      <-> (existsSync CONFIG w start (outputPath CONFIG) = true
           \/ mkdirError w (outputPath CONFIG) = None)
          /\ (exists files, findFiles (datasetPath CONFIG) (root w) = Ok files)
          /\ writeError w (reportPath CONFIG) = None
          /\ writeError w (manifestPath CONFIG) = None).
Proof.
  unfold main. rewrite run_split.
  pose proof (run_items_returns start) as Hitems.
  destruct (run_items CONFIG w start) as [[[] | e] m1]; cbn [fst] in Hitems.
  - pose proof (generateReports_returns m1) as Hrep.
    destruct (generateReports CONFIG w m1) as [[[] | e] m2]; cbn [fst] in *.
    + split; [now left |]. split; [intros _ | reflexivity].
      destruct Hitems as [Hi _]. destruct Hrep as [Hr _].
      destruct (Hi (ex_intro _ tt eq_refl)) as [? ?].
      destruct (Hr (ex_intro _ tt eq_refl)) as [? ?]. auto.
    + split; [now right |]. split; [discriminate |].
      intros (_ & _ & Hw1 & Hw2).
      destruct Hrep as [_ Hr]. destruct (Hr (conj Hw1 Hw2)) as [u Hu]. discriminate Hu.
  - split; [now right |]. split; [discriminate |].
    intros (Hout & Hfiles & _).
    destruct Hitems as [_ Hi]. destruct (Hi (conj Hout Hfiles)) as [u Hu].
    discriminate Hu.
Qed.

End RunFacts.

(** C1, as the code has it.  The exit status is 0 or 1, and it is 0 exactly
    when the output root exists or can be created, discovery succeeds and
    the two report files can be written.  It does not depend on the
    strict-mode flag, nor on how many items were counted as errors. *)
Theorem exit_status_is_run_level
    (CONFIG : Config) (w : World) (lib : MetadataLib) :
  (fst (main CONFIG w) = 0 \/ fst (main CONFIG w) = 1)
  /\ (fst (main CONFIG w) = 0
      <-> (existsSync CONFIG w start (outputPath CONFIG) = true
           \/ mkdirError w (outputPath CONFIG) = None)
          /\ (exists files, findFiles (datasetPath CONFIG) (root w) = Ok files)
          /\ writeError w (reportPath CONFIG) = None
          /\ writeError w (manifestPath CONFIG) = None)
  /\ (forall strict,
        fst (main (with_strictMode strict CONFIG) w) = fst (main CONFIG w)).
Proof.
  destruct (main_status CONFIG w) as [Hrange Hzero].
  split; [exact Hrange | split; [exact Hzero |]].
  intros strict.
  destruct (main_status (with_strictMode strict CONFIG) w) as [Hrange' Hzero'].
  change (fst (main (with_strictMode strict CONFIG) w) = 0
          <-> (existsSync CONFIG w start (outputPath CONFIG) = true
               \/ mkdirError w (outputPath CONFIG) = None)
              /\ (exists files, findFiles (datasetPath CONFIG) (root w) = Ok files)
              /\ writeError w (reportPath CONFIG) = None
              /\ writeError w (manifestPath CONFIG) = None) in Hzero'.
  rewrite <- Hzero in Hzero'.
  destruct Hrange as [H0 | H1], Hrange' as [H0' | H1']; try congruence.
  - apply Hzero' in H0. congruence.
  - apply Hzero' in H0'. congruence.
Qed.

Lemma report_and_manifest_paths_differ (CONFIG : Config) :
  manifestPath CONFIG <> reportPath CONFIG.
Proof.
  unfold manifestPath, reportPath, path_join. intros Heq.
  apply (inj (String.append (outputPath CONFIG))) in Heq.
  discriminate Heq.
Qed.


(** C10.  [recordError] appends one pair of file and message to the error
    list and leaves every other field as it was.  A copy that fails records
    an error without counting a file, and there is a run whose error list is
    longer than its [errorFiles]. *)
Theorem recordError_only_appends :
  (forall file err s,
     errors (recordError file err s)
     = (errors s ++ [ {| e_file := file; e_error := message err |} ])%list
     /\ totalFiles (recordError file err s) = totalFiles s
     /\ processedFiles (recordError file err s) = processedFiles s
     /\ skippedFiles (recordError file err s) = skippedFiles s
     /\ errorFiles (recordError file err s) = errorFiles s
     /\ originCounts (recordError file err s) = originCounts s
     /\ authorCounts (recordError file err s) = authorCounts s
     /\ licenseCounts (recordError file err s) = licenseCounts s
     /\ toolchainCounts (recordError file err s) = toolchainCounts s
     /\ sizeStats (recordError file err s) = sizeStats s)
  /\ (forall CONFIG w (lib : MetadataLib) file m e,
        mkdirError w (path_dirname (output_of CONFIG (p_filePath file))) = None ->
        writeError w (output_of CONFIG (p_filePath file)) = Some e ->
        stats (snd (copyCleanFile CONFIG w file m))
        = recordError (p_filePath file) e (stats m))
  /\ (let m := snd (@main (Sample.config false)
                      (Sample.world_of Sample.clean_tree ["clean-dataset/a.txt"])
                      Sample.lib) in
      errorFiles (stats m) = 0
      /\ length (errors (stats m)) = 1%nat
      /\ r_errorFiles (r_summary (getReport (stats m)))
         < Z.of_nat (length (r_errors (getReport (stats m))))).
Proof.
  split; [| split].
  - intros file err s. repeat split; reflexivity.
  - intros CONFIG w lib file m e Hmk Hw. unfold copyCleanFile.
    cbv [bind ret lift emit try_catch fs_existsSync fs_mkdirSync
         fs_writeFileSync stats_recordError].
    fold (output_of CONFIG (p_filePath file)). rewrite Hmk, Hw.
    now destruct (existsSync CONFIG w m _).
  - vm_compute. repeat split; reflexivity.
Qed.

(** ** The properties on explicit inputs *)

(** C1 as stated fails: a strict-mode run whose only item fails the
    integrity check counts one error and still exits with status 0. *)
Lemma strict_run_with_errored_item_exits_zero :
  let CONFIG := Sample.config true in
  let w := Sample.world_of Sample.tampered_tree [] in
  strictMode CONFIG = true
  /\ errorFiles (stats (snd (@main CONFIG w Sample.lib))) = 1
  /\ fst (@main CONFIG w Sample.lib) = 0.
Proof. vm_compute. repeat split; reflexivity. Qed.


(** C8 as stated fails: a directory listed as [b.txt], [a.txt] is
    enumerated in that order, which is not the lexical one. *)
Lemma discovery_follows_listing_order :
  findFiles "dataset" Sample.unsorted_tree = Ok ["dataset/b.txt"; "dataset/a.txt"]
  /\ discovery_spec "dataset" Sample.unsorted_tree = ["dataset/a.txt"; "dataset/b.txt"]
  /\ sorted_paths ["dataset/b.txt"; "dataset/a.txt"] = false.
Proof. vm_compute. repeat split; reflexivity. Qed.


(** C4 on the sample: the item without a sidecar is skipped, the item whose
    sidecar lacks the author is an error. *)
Lemma absent_and_malformed_witness :
  let CONFIG := Sample.config false in
  let w := Sample.world in
  skippedFiles (stats (snd (@processFile CONFIG w Sample.lib "dataset/sub/d.json" start))) = 1
  /\ errors (stats (snd (@processFile CONFIG w Sample.lib "dataset/e.txt" start)))
     = [ {| e_file := "dataset/e.txt";
            e_error := "Invalid metadata: Missing required field: author" |} ].
Proof.
  intros CONFIG w. split.
  - pose proof (absent_and_malformed_metadata_differ CONFIG w Sample.lib
                  "dataset/sub/d.json" start {| isDirectory := false; size := 2 |}
                  eq_refl ltac:(vm_compute; discriminate) eq_refl)
      as [Habsent _].
    destruct (Habsent eq_refl) as (_ & Hs & _). exact Hs.
  - pose proof (absent_and_malformed_metadata_differ CONFIG w Sample.lib
                  "dataset/e.txt" start {| isDirectory := false; size := 9 |}
                  eq_refl ltac:(vm_compute; discriminate) eq_refl)
      as [_ Hmalformed].
    destruct (Hmalformed (Sample.no_author_record "sha256:anonymous")
                eq_refl eq_refl) as (_ & _ & _ & _ & He).
    exact He.
Defined.

(** C5 on an item of 20 MiB under the threshold of 10 MiB. *)
Lemma oversized_item_witness :
  let CONFIG := Sample.config false in
  let w := Sample.world_of Sample.large_tree [] in
  fst (@processFile CONFIG w Sample.lib "dataset/big.txt" start) = Ok None
  /\ trace (snd (@processFile CONFIG w Sample.lib "dataset/big.txt" start))
     = [StatSync "dataset/big.txt"; At CheckFileSize "dataset/big.txt"].
Proof.
  intros CONFIG w.
  pose proof (oversized_item_skipped_unread CONFIG w Sample.lib "dataset/big.txt"
                start {| isDirectory := false; size := 20 * 1024 * 1024 |}
                eq_refl eq_refl)
    as (Hret & Htrace & _).
  split; [exact Hret | exact Htrace].
Defined.

(** C6 on the AI item of the sample, with only human origin allowed. *)
Lemma disallowed_origin_witness :
  let CONFIG := Sample.config false in
  let w := Sample.world in
  fst (@processFile CONFIG w Sample.lib "dataset/sub/c.md" start) = Ok None
  /\ skippedFiles (stats (snd (@processFile CONFIG w Sample.lib "dataset/sub/c.md" start))) = 1.
Proof.
  intros CONFIG w.
  pose proof (disallowed_origin_rejected CONFIG w Sample.lib "dataset/sub/c.md"
                start {| isDirectory := false; size := 9 |}
                (Sample.ai_record "sha256:generated")
                eq_refl eq_refl eq_refl eq_refl)
    as (Hret & _ & Hs & _).
  split; [exact Hret | exact Hs].
Defined.

(** C7 on three calls, one of each status. *)
Lemma recordFile_accounting_witness :
  let calls :=
    [ {| c_metadata := None; c_fileSize := 5; c_status := "skipped" |};
      {| c_metadata := Some (toObject (Sample.human_record "")); c_fileSize := 7;
         c_status := "processed" |};
      {| c_metadata := None; c_fileSize := 0; c_status := "error" |} ] in
  balanced (recordFiles calls reset) /\ totalFiles (recordFiles calls reset) = 3.
Proof.
  intros calls.
  assert (Forall (fun c => known_status (c_status c)) calls) as Hknown.
  { unfold calls, known_status.
    repeat apply List.Forall_cons; try apply List.Forall_nil; cbn; auto. }
  pose proof (recordFile_accounting calls Hknown) as (Hb & Ht & _).
  split; [exact Hb | exact Ht].
Defined.

(** C8 on the sample tree. *)
Lemma discovery_witness :
  findFiles "dataset" Sample.tree
  = Ok ["dataset/a.txt"; "dataset/b.txt"; "dataset/sub/c.md";
        "dataset/sub/d.json"; "dataset/e.txt"].
Proof.
  pose proof (discovery_in_listing_order "dataset"
                [ ("a.txt", Sample.file "hello");
                  ("a.txt.meta.xml", Sample.file "human:sha256:hello");
                  ("b.txt", Sample.file "edited later");
                  ("b.txt.meta.xml", Sample.file "human:sha256:as tagged");
                  ("sub", Directory
                     [ ("c.md", Sample.file "generated");
                       ("c.md.meta.xml", Sample.file "ai:sha256:generated");
                       ("d.json", Sample.file "{}") ]);
                  ("e.txt", Sample.file "anonymous");
                  ("e.txt.meta.xml", Sample.file "noauthor:sha256:anonymous");
                  ("image.png", Sample.file "PNG") ]
                eq_refl)
    as (Hfound & _).
  exact Hfound.
Defined.


(** * Further properties of the pipeline *)

(** ** extractMetadata *)

Section ExtractionFacts.

Context (CONFIG : Config) (w : World) `{MetadataLib}.

Lemma extractMetadata_sidecar filePath m xml returned :
  existsSync CONFIG w m (filePath +:+ ".meta.xml") = true ->
  readFileSync CONFIG w (filePath +:+ ".meta.xml") = Ok xml ->
  parseXML xml = Ok returned ->
  extractMetadata CONFIG w filePath m
  = (Ok returned,
     log [ExistsSync (filePath +:+ ".meta.xml");
          ReadFileSync (filePath +:+ ".meta.xml"); CallParseXML] m).
Proof.
  intros Hex Hread Hparse. unfold extractMetadata.
  cbv [bind ret lift emit try_catch fs_readFileSync fs_existsSync].
  rewrite Hex, Hread, Hparse. cbn. now rewrite !log_log.
Qed.

Lemma extracts_fallback filePath m :
  sidecar_fails CONFIG w filePath m ->
  extracts CONFIG w filePath m = embedded_route CONFIG w filePath.
Proof.
  unfold sidecar_fails, extracts, embedded_route, extractMetadata.
  cbv [bind ret lift emit try_catch fs_readFileSync fs_existsSync].
  intros [Hex | [[e Hread] | (xml & e & Hread & Hparse)]].
  - rewrite Hex.
    destruct (endsWith filePath ".html"); [| reflexivity].
    destruct (readFileSync CONFIG w filePath) as [html | e]; [| reflexivity].
    now destruct (html_extractMetadata html).
  - rewrite Hread.
    destruct (existsSync CONFIG w m (filePath +:+ ".meta.xml"));
      (destruct (endsWith filePath ".html"); [| reflexivity]);
      (destruct (readFileSync CONFIG w filePath) as [html | e']; [| reflexivity]);
      now destruct (html_extractMetadata html).
  - rewrite Hread, Hparse.
    destruct (existsSync CONFIG w m (filePath +:+ ".meta.xml"));
      (destruct (endsWith filePath ".html"); [| reflexivity]);
      (destruct (readFileSync CONFIG w filePath) as [html | e']; [| reflexivity]);
      now destruct (html_extractMetadata html).
Qed.

End ExtractionFacts.

(** X1.  When the sidecar exists, can be read and parses, [extractMetadata]
    returns what [parseXML] returned, [null] included, after exactly three
    calls: the existence test, the read and the parse.  The item itself is
    not read and its embedded metadata is not consulted. *)
Theorem sidecar_takes_priority
    (CONFIG : Config) (w : World) (lib : MetadataLib)
    (filePath : string) (m : Machine) (xml : string)
    (returned : option ContentMetadata) :
  existsSync CONFIG w m (filePath +:+ ".meta.xml") = true ->
  readFileSync CONFIG w (filePath +:+ ".meta.xml") = Ok xml ->
  parseXML xml = Ok returned ->
  extractMetadata CONFIG w filePath m
  = (Ok returned,
     log [ExistsSync (filePath +:+ ".meta.xml");
          ReadFileSync (filePath +:+ ".meta.xml"); CallParseXML] m)
  /\ extracts CONFIG w filePath m = returned.
Proof.
  intros Hex Hread Hparse.
  pose proof (extractMetadata_sidecar CONFIG w filePath m xml returned
                Hex Hread Hparse) as Heq.
  split; [exact Heq |]. unfold extracts. now rewrite Heq.
Qed.

(** X2.  When the sidecar is absent, unreadable or unparseable, the failure
    is swallowed: [extractMetadata] gives what the embedded-metadata route
    gives, which is [null] for every item whose name does not end in
    [.html], and [null] as well when the item cannot be read or the
    extractor throws. *)
Theorem sidecar_failure_falls_back
    (CONFIG : Config) (w : World) (lib : MetadataLib)
    (filePath : string) (m : Machine) :
  sidecar_fails CONFIG w filePath m ->
  extracts CONFIG w filePath m = embedded_route CONFIG w filePath
  /\ (endsWith filePath ".html" = false -> extracts CONFIG w filePath m = None)
  /\ (forall e, readFileSync CONFIG w filePath = Throw e ->
                extracts CONFIG w filePath m = None).
Proof.
  intros Hfail.
  pose proof (extracts_fallback CONFIG w filePath m Hfail) as Heq.
  split; [exact Heq | split].
  - intros Hhtml. rewrite Heq. unfold embedded_route. now rewrite Hhtml.
  - intros e Hread. rewrite Heq. unfold embedded_route. rewrite Hread.
    now destruct (endsWith filePath ".html").
Qed.

(** X3.  An item that is not an HTML document and whose sidecar cannot be
    read or parsed is counted as skipped, like an item without metadata: no
    error entry is recorded and [errorFiles] does not move. *)
Theorem broken_sidecar_is_skipped_silently
    (CONFIG : Config) (w : World) (lib : MetadataLib)
    (filePath : string) (m : Machine) (st : Stats) :
  statSync CONFIG w filePath = Ok st ->
  size st <= maxFileSize CONFIG ->
  excluded CONFIG filePath = false ->
  endsWith filePath ".html" = false ->
  sidecar_fails CONFIG w filePath m ->
  let m' := snd (processFile CONFIG w filePath m) in
  fst (processFile CONFIG w filePath m) = Ok None
  /\ skippedFiles (stats m') = skippedFiles (stats m) + 1
  /\ errorFiles (stats m') = errorFiles (stats m)
  /\ errors (stats m') = errors (stats m).
Proof.
  intros Hstat Hsize Hexcl Hhtml Hfail m'. subst m'.
  rewrite processFile_returns, processFile_stats.
  assert (verdict CONFIG w filePath m = NoMetadata st) as ->.
  { unfold verdict.
    rewrite Hstat, (not_too_large CONFIG st Hsize), Hexcl.
    rewrite (extracts_fallback CONFIG w filePath m Hfail).
    unfold embedded_route. now rewrite Hhtml. }
  cbn. repeat split; reflexivity.
Qed.

(** ** processFile *)

(** X4.  When [statSync] throws on the item, [processFile] makes no other
    call, records the error message against the item, counts it as an error
    with size 0 and returns [null]. *)
Theorem unstattable_item_is_errored
    (CONFIG : Config) (w : World) (lib : MetadataLib)
    (filePath : string) (m : Machine) (e : JsError) :
  statSync CONFIG w filePath = Throw e ->
  processFile CONFIG w filePath m
  = (Ok None,
     set_stats (snd (recordFile None 0 "error" (recordError filePath e (stats m))))
               (log [StatSync filePath] m))
  /\ errorFiles (stats (snd (processFile CONFIG w filePath m)))
     = errorFiles (stats m) + 1
  /\ errors (stats (snd (processFile CONFIG w filePath m)))
     = (errors (stats m) ++ [ {| e_file := filePath; e_error := message e |} ])%list
  /\ sizeStats (stats (snd (processFile CONFIG w filePath m))) = sizeStats (stats m).
Proof.
  intros Hstat.
  assert (processFile CONFIG w filePath m
          = (Ok None,
             set_stats (snd (recordFile None 0 "error"
                               (recordError filePath e (stats m))))
                       (log [StatSync filePath] m))) as Heq.
  { unfold processFile.
    cbv [bind ret lift emit try_catch fs_statSync stats_recordFile
         stats_recordError].
    rewrite Hstat. reflexivity. }
  rewrite Heq. repeat split; reflexivity.
Qed.

(** X5.  When an item has valid metadata of an allowed origin but its
    content cannot be read, the item is counted as an error under the read
    error's message and [processFile] returns [null], in strict mode and
    otherwise. *)
Theorem unreadable_content_is_errored
    (CONFIG : Config) (w : World) (lib : MetadataLib)
    (filePath : string) (m : Machine) (st : Stats) (md : ContentMetadata)
    (e : JsError) :
  statSync CONFIG w filePath = Ok st ->
  size st <= maxFileSize CONFIG ->
  excluded CONFIG filePath = false ->
  extracts CONFIG w filePath m = Some md ->
  isValid (validate md) = true ->
  array_includes (allowedOrigins CONFIG) (origin md) = true ->
  readFileSync CONFIG w filePath = Throw e ->
  let m' := snd (processFile CONFIG w filePath m) in
  fst (processFile CONFIG w filePath m) = Ok None
  /\ errorFiles (stats m') = errorFiles (stats m) + 1
  /\ processedFiles (stats m') = processedFiles (stats m)
  /\ skippedFiles (stats m') = skippedFiles (stats m)
  /\ errors (stats m')
     = (errors (stats m) ++ [ {| e_file := filePath; e_error := message e |} ])%list.
Proof.
  intros Hstat Hsize Hexcl Hext Hvalid Horigin Hread m'. subst m'.
  rewrite processFile_returns, processFile_stats.
  rewrite (verdict_with_metadata CONFIG w filePath m st md Hstat Hsize Hexcl Hext).
  rewrite Hvalid, Horigin, Hread. cbn. repeat split; reflexivity.
Qed.


(** X7.  [processFile] never throws and never writes: whatever the item and
    the state, it returns, it leaves the written files and the created
    directories as they were, and it only extends the history of calls. *)
Theorem processFile_total_and_read_only
    (CONFIG : Config) (w : World) (lib : MetadataLib)
    (filePath : string) (m : Machine) :
  (exists result, fst (processFile CONFIG w filePath m) = Ok result)
  /\ disk (snd (processFile CONFIG w filePath m)) = disk m
  /\ dirs (snd (processFile CONFIG w filePath m)) = dirs m
  /\ trace m `prefix_of` trace (snd (processFile CONFIG w filePath m)).
Proof.
  destruct (processFile_verdict CONFIG w filePath m) as (tr & Heq & _).
  rewrite Heq. cbn. repeat split; try reflexivity.
  - eexists; reflexivity.
  - now exists tr.
Qed.

(** X8.  An item whose base name contains one of the exclusion patterns is
    counted as skipped after the [statSync] and the two tests alone: no
    sidecar is looked for and nothing is read. *)
Theorem excluded_item_skipped_unread
    (CONFIG : Config) (w : World) (lib : MetadataLib)
    (filePath : string) (m : Machine) (st : Stats) :
  statSync CONFIG w filePath = Ok st ->
  size st <= maxFileSize CONFIG ->
  excluded CONFIG filePath = true ->
  let m' := snd (processFile CONFIG w filePath m) in
  fst (processFile CONFIG w filePath m) = Ok None
  /\ trace m'
     = (trace m ++ [StatSync filePath; At CheckFileSize filePath;
                    At CheckExcludePatterns filePath])%list
  /\ skippedFiles (stats m') = skippedFiles (stats m) + 1
  /\ errorFiles (stats m') = errorFiles (stats m)
  /\ errors (stats m') = errors (stats m).
Proof.
  intros Hstat Hsize Hexcl m'. subst m'.
  unfold excluded in Hexcl. unfold processFile.
  cbv [bind ret lift emit try_catch fs_statSync stats_recordFile].
  rewrite Hstat, (not_too_large CONFIG st Hsize), Hexcl. cbn.
  rewrite <- !app_assoc. repeat split; reflexivity.
Qed.

(** ** The items handed to copyCleanFiles *)

Section OutputFacts.

Context (CONFIG : Config) (w : World) `{MetadataLib}.

Lemma verdict_result_some filePath m item :
  verdict_result CONFIG filePath (verdict CONFIG w filePath m) = Some item ->
  p_filePath item = filePath /\ admissible CONFIG w item.
Proof.
  unfold verdict, admissible.
  destruct (statSync CONFIG w filePath) as [st | e]; [| discriminate].
  destruct (size st >? maxFileSize CONFIG); [discriminate |].
  destruct (excluded CONFIG filePath); [discriminate |].
  destruct (extracts CONFIG w filePath m) as [md |]; [| discriminate].
  destruct (isValid (validate md)) eqn:Hvalid; [| discriminate].
  destruct (array_includes (allowedOrigins CONFIG) (origin md)) eqn:Horigin;
    [| discriminate].
  cbn [negb].
  destruct (readFileSync CONFIG w filePath) as [content | e] eqn:Hread;
    [| discriminate].
  destruct (verifyIntegrity md content) eqn:Hint; cbn [negb verdict_result].
  - intros [= <-]. cbn. repeat split; auto.
    intros _. unfold verifyIntegrity in Hint. now apply String.eqb_eq.
  - destruct (strictMode CONFIG) eqn:Hstrict; [discriminate |].
    intros [= <-]. cbn. repeat split; auto. discriminate.
Qed.

Lemma processAll_items files : forall acc m,
  exists kept,
    fst (processAll CONFIG w files acc m) = Ok (acc ++ kept)%list
    /\ Forall (admissible CONFIG w) kept
    /\ List.map p_filePath kept `sublist_of` files.
Proof.
  induction files as [| file rest IH]; intros acc m.
  - exists []. cbn. rewrite app_nil_r. repeat split; constructor.
  - rewrite processAll_step.
    destruct (verdict_result CONFIG file (verdict CONFIG w file m)) as [item |] eqn:Hres.
    + destruct (verdict_result_some file m item Hres) as [Hpath Hadm].
      destruct (IH (acc ++ [item])%list (snd (processFile CONFIG w file m)))
        as (kept & Heq & Hall & Hsub).
      exists (item :: kept). rewrite Heq, <- app_assoc. cbn [app List.map].
      rewrite Hpath. repeat split.
      * now apply List.Forall_cons.
      * now apply sublist_skip.
    + destruct (IH acc (snd (processFile CONFIG w file m))) as (kept & Heq & Hall & Hsub).
      exists kept. repeat split; [exact Heq | exact Hall |].
      now apply sublist_cons.
Qed.

End OutputFacts.

(** X9.  Every item the processing loop of [run] hands to [copyCleanFiles]
    has metadata that passed [validate()], an origin among [allowedOrigins]
    and the content read from its path; in strict mode its recomputed hash
    equals [contentHash].  The items come in the order of discovery, each
    discovered file at most once. *)
Theorem copied_items_are_admissible
    (CONFIG : Config) (w : World) (lib : MetadataLib)
    (files : list string) (m : Machine) :
  exists items,
    fst (processAll CONFIG w files [] m) = Ok items
    /\ Forall (admissible CONFIG w) items
    /\ List.map p_filePath items `sublist_of` files
    /\ (length items <= length files)%nat.
Proof.
  destruct (processAll_items CONFIG w files [] m) as (kept & Heq & Hall & Hsub).
  exists kept. repeat split; try assumption.
  apply sublist_length in Hsub. now rewrite length_map in Hsub.
Qed.

(** ** The statistics a run accumulates *)











Section RunAccounting.

Context (CONFIG : Config) (w : World) `{MetadataLib}.


End RunAccounting.

(** ** copyCleanFiles *)

Lemma appends_errors_refl n s : appends_errors n s s.
Proof.
  unfold appends_errors. repeat split; try reflexivity.
  exists []. rewrite app_nil_r. split; [reflexivity | cbn; lia].
Qed.

Lemma appends_errors_trans n1 n2 s1 s2 s3 :
  appends_errors n1 s1 s2 -> appends_errors n2 s2 s3 ->
  appends_errors (n1 + n2) s1 s3.
Proof.
  unfold appends_errors.
  intros (? & ? & ? & ? & ? & ? & ? & ? & ? & a1 & Ha1 & Hl1)
         (? & ? & ? & ? & ? & ? & ? & ? & ? & a2 & Ha2 & Hl2).
  repeat split; try congruence.
  exists (a1 ++ a2)%list. rewrite Ha2, Ha1, <- app_assoc, length_app.
  split; [reflexivity | lia].
Qed.

Lemma appends_errors_recordError file e s :
  appends_errors 1 s (recordError file e s).
Proof.
  unfold appends_errors. repeat split; try reflexivity.
  eexists; split; [reflexivity | cbn; lia].
Qed.

Section CopyFacts.

Context (CONFIG : Config) (w : World) `{MetadataLib}.

Lemma copyCleanFile_appends file m :
  appends_errors 1 (stats m) (stats (snd (copyCleanFile CONFIG w file m))).
Proof.
  destruct (copyCleanFile_stats CONFIG w file m) as [_ [-> | [e ->]]].
  - apply appends_errors_refl.
  - apply appends_errors_recordError.
Qed.

Lemma copyCleanFiles_appends l : forall m,
  appends_errors (length l) (stats m) (stats (snd (copyCleanFiles CONFIG w l m))).
Proof.
  induction l as [| file rest IH]; intros m.
  - apply appends_errors_refl.
  - unfold copyCleanFiles in *. cbn [for_each length]. unfold bind at 1.
    pose proof (copyCleanFile_appends file m) as Hone.
    destruct (copyCleanFile_stats CONFIG w file m) as [Hok _].
    destruct (copyCleanFile CONFIG w file m) as [r m1]; cbn [fst snd] in *.
    rewrite Hok. change (S (length rest)) with (1 + length rest)%nat.
    eapply appends_errors_trans; [exact Hone | apply IH].
Qed.

(** The state after a copy that meets no failure. *)
Lemma copyCleanFile_succeeds file m :
  let out := output_of CONFIG (p_filePath file) in
  existsSync CONFIG w m (path_dirname out) = true
  \/ mkdirError w (path_dirname out) = None ->
  writeError w out = None ->
  writeError w (out +:+ ".meta.xml") = None ->
  let m' := snd (copyCleanFile CONFIG w file m) in
  stats m' = stats m
  /\ disk m'
     = <[out +:+ ".meta.xml" := Bytes (toXML (p_metadata file))]>
         (<[out := Bytes (p_content file)]> (disk m)).
Proof.
  intros out Hdir Hw1 Hw2. unfold copyCleanFile.
  cbv [bind ret lift emit try_catch fs_existsSync fs_mkdirSync
       fs_writeFileSync stats_recordError].
  fold (output_of CONFIG (p_filePath file)). fold out.
  rewrite Hw1, Hw2.
  destruct (existsSync CONFIG w m (path_dirname out)).
  - cbn. now split.
  - destruct Hdir as [Hdir | Hdir]; [discriminate |].
    rewrite Hdir. cbn. now split.
Qed.

(** The state after a copy whose second write fails. *)
Lemma copyCleanFile_half file m e :
  let out := output_of CONFIG (p_filePath file) in
  existsSync CONFIG w m (path_dirname out) = true
  \/ mkdirError w (path_dirname out) = None ->
  writeError w out = None ->
  writeError w (out +:+ ".meta.xml") = Some e ->
  let m' := snd (copyCleanFile CONFIG w file m) in
  stats m' = recordError (p_filePath file) e (stats m)
  /\ disk m' = <[out := Bytes (p_content file)]> (disk m).
Proof.
  intros out Hdir Hw1 Hw2. unfold copyCleanFile.
  cbv [bind ret lift emit try_catch fs_existsSync fs_mkdirSync
       fs_writeFileSync stats_recordError].
  fold (output_of CONFIG (p_filePath file)). fold out.
  rewrite Hw1, Hw2.
  destruct (existsSync CONFIG w m (path_dirname out)).
  - cbn. now split.
  - destruct Hdir as [Hdir | Hdir]; [discriminate |].
    rewrite Hdir. cbn. now split.
Qed.

(** The state after a copy whose directory cannot be created. *)
Lemma copyCleanFile_no_directory file m e :
  let out := output_of CONFIG (p_filePath file) in
  existsSync CONFIG w m (path_dirname out) = false ->
  mkdirError w (path_dirname out) = Some e ->
  let m' := snd (copyCleanFile CONFIG w file m) in
  stats m' = recordError (p_filePath file) e (stats m)
  /\ disk m' = disk m /\ dirs m' = dirs m.
Proof.
  intros out Hex Hmk. unfold copyCleanFile.
  cbv [bind ret lift emit try_catch fs_existsSync fs_mkdirSync
       fs_writeFileSync stats_recordError].
  fold (output_of CONFIG (p_filePath file)). fold out.
  rewrite Hex, Hmk. cbn. now repeat split.
Qed.

End CopyFacts.

(** X10.  [copyCleanFiles] never throws and never touches a counter, a
    count or the size statistics: it only appends error entries, at most
    one for each file it was given. *)
Theorem copyCleanFiles_only_appends_errors
    (CONFIG : Config) (w : World)
    (items : list Processed) (m : Machine) :
  fst (copyCleanFiles CONFIG w items m) = Ok tt
  /\ appends_errors (length items) (stats m)
       (stats (snd (copyCleanFiles CONFIG w items m))).
Proof.
  split; [apply copyCleanFiles_returns | apply copyCleanFiles_appends].
Qed.

(** X11.  A copy that meets no failure writes the content at the output
    path and the re-serialised metadata beside it, at the output path with
    [.meta.xml] appended, and records nothing.  When the output directory
    already exists [mkdirSync] is not called, so its failing does not
    matter. *)
Theorem copy_writes_content_and_sidecar
    (CONFIG : Config) (w : World)
    (file : Processed) (m : Machine) :
  let out := output_of CONFIG (p_filePath file) in
  existsSync CONFIG w m (path_dirname out) = true
  \/ mkdirError w (path_dirname out) = None ->
  writeError w out = None ->
  writeError w (out +:+ ".meta.xml") = None ->
  let m' := snd (copyCleanFile CONFIG w file m) in
  stats m' = stats m
  /\ disk m' !! out = Some (Bytes (p_content file))
  /\ disk m' !! (out +:+ ".meta.xml") = Some (Bytes (toXML (p_metadata file)))
  /\ forall q, q <> out -> q <> out +:+ ".meta.xml" -> disk m' !! q = disk m !! q.
Proof.
  intros out Hdir Hw1 Hw2 m'. subst m'.
  destruct (copyCleanFile_succeeds CONFIG w file m Hdir Hw1 Hw2) as [Hs Hd].
  fold out in Hd. rewrite Hd. split; [exact Hs | split; [| split]].
  - rewrite lookup_insert_ne by apply sidecar_path_differs.
    apply lookup_insert_eq.
  - apply lookup_insert_eq.
  - intros q Hq1 Hq2. rewrite !lookup_insert_ne by congruence. reflexivity.
Qed.

(** X12.  A copy is not atomic: when the content is written and the write
    of the metadata fails, the content stays at the output path without its
    sidecar, and the failure is recorded as an error entry for the item
    while no counter moves. *)
Theorem copy_can_leave_content_without_sidecar
    (CONFIG : Config) (w : World)
    (file : Processed) (m : Machine) (e : JsError) :
  let out := output_of CONFIG (p_filePath file) in
  existsSync CONFIG w m (path_dirname out) = true
  \/ mkdirError w (path_dirname out) = None ->
  writeError w out = None ->
  writeError w (out +:+ ".meta.xml") = Some e ->
  let m' := snd (copyCleanFile CONFIG w file m) in
  disk m' !! out = Some (Bytes (p_content file))
  /\ disk m' !! (out +:+ ".meta.xml") = disk m !! (out +:+ ".meta.xml")
  /\ errors (stats m')
     = (errors (stats m)
        ++ [ {| e_file := p_filePath file; e_error := message e |} ])%list
  /\ errorFiles (stats m') = errorFiles (stats m)
  /\ totalFiles (stats m') = totalFiles (stats m).
Proof.
  intros out Hdir Hw1 Hw2 m'. subst m'.
  destruct (copyCleanFile_half CONFIG w file m e Hdir Hw1 Hw2) as [Hs Hd].
  fold out in Hd. rewrite Hd, Hs. split; [| split].
  - apply lookup_insert_eq.
  - rewrite lookup_insert_ne; [reflexivity |].
    intros Heq. symmetry in Heq. now apply sidecar_path_differs in Heq.
  - repeat split; reflexivity.
Qed.

(** X13.  When the output directory of an item neither exists nor can be
    created, nothing is written for the item and the failure is recorded as
    an error entry. *)
Theorem copy_without_directory_writes_nothing
    (CONFIG : Config) (w : World)
    (file : Processed) (m : Machine) (e : JsError) :
  let out := output_of CONFIG (p_filePath file) in
  existsSync CONFIG w m (path_dirname out) = false ->
  mkdirError w (path_dirname out) = Some e ->
  let m' := snd (copyCleanFile CONFIG w file m) in
  disk m' = disk m
  /\ dirs m' = dirs m
  /\ errors (stats m')
     = (errors (stats m)
        ++ [ {| e_file := p_filePath file; e_error := message e |} ])%list.
Proof.
  intros out Hex Hmk m'. subst m'.
  destruct (copyCleanFile_no_directory CONFIG w file m e Hex Hmk) as (Hs & Hd & Hk).
  rewrite Hs. repeat split; assumption || reflexivity.
Qed.

(** ** generateReports and run *)

Section ReportFacts.

Context (CONFIG : Config) (w : World) `{MetadataLib}.

Lemma generateReports_stats m :
  stats (snd (generateReports CONFIG w m)) = stats m.
Proof.
  unfold generateReports. cbv [bind ret lift emit fs_writeFileSync].
  destruct (writeError w (reportPath CONFIG));
    [| destruct (writeError w (manifestPath CONFIG))]; reflexivity.
Qed.

Lemma generateReports_report_unwritable m e :
  writeError w (reportPath CONFIG) = Some e ->
  fst (generateReports CONFIG w m) = Throw e
  /\ disk (snd (generateReports CONFIG w m)) = disk m
  /\ trace (snd (generateReports CONFIG w m))
     = (trace m ++ [WriteFileSync (reportPath CONFIG)])%list.
Proof.
  intros Hw. unfold generateReports. cbv [bind ret lift emit fs_writeFileSync].
  rewrite Hw. cbn. now repeat split.
Qed.

Lemma generateReports_written m :
  writeError w (reportPath CONFIG) = None ->
  writeError w (manifestPath CONFIG) = None ->
  fst (generateReports CONFIG w m) = Ok tt
  /\ disk (snd (generateReports CONFIG w m)) !! reportPath CONFIG
     = Some (ReportJson (getReport (stats m)))
  /\ exists manifest,
       disk (snd (generateReports CONFIG w m)) !! manifestPath CONFIG
       = Some (ManifestJson manifest)
       /\ generatedAt manifest = now w
       /\ configuration manifest = CONFIG
       /\ statistics manifest = r_summary (getReport (stats m))
       /\ originDistribution manifest = originCounts (stats m)
       /\ integrityVerified (qualityMetrics manifest) = true
       /\ metadataCompliant (qualityMetrics manifest) = true.
Proof.
  intros Hw1 Hw2. unfold generateReports. cbv [bind ret lift emit fs_writeFileSync].
  rewrite Hw1, Hw2. cbn. split; [reflexivity | split].
  - rewrite lookup_insert_ne by apply report_and_manifest_paths_differ.
    apply lookup_insert_eq.
  - eexists. split; [apply lookup_insert_eq |]. cbn. now repeat split.
Qed.


(** The item phase of a run whose discovery fails. *)
Lemma run_items_no_discovery m e :
  findFiles (datasetPath CONFIG) (root w) = Throw e ->
  (exists e', fst (run_items CONFIG w m) = Throw e')
  /\ stats (snd (run_items CONFIG w m)) = stats m
  /\ disk (snd (run_items CONFIG w m)) = disk m.
Proof.
  intros Hfiles. unfold run_items.
  cbv [bind ret lift emit fs_existsSync fs_mkdirSync].
  rewrite Hfiles.
  destruct (existsSync CONFIG w m (outputPath CONFIG));
    [| destruct (mkdirError w (outputPath CONFIG))]; cbn; eauto.
Qed.

End ReportFacts.

Section MainFacts.

Context (CONFIG : Config) (w : World) `{MetadataLib}.

Lemma main_state : snd (main CONFIG w) = snd (run CONFIG w start).
Proof. unfold main. now destruct (run CONFIG w start) as [[[] | e] m]. Qed.



End MainFacts.

(** X14.  When both report files can be written, [generateReports] writes
    the report of the statistics as they stand, and a manifest with the
    time of writing, the configuration, the summary of that report and the
    origin counts.  The manifest declares [integrityVerified] and
    [metadataCompliant] to be true whatever the statistics say. *)
Theorem reports_hold_the_statistics
    (CONFIG : Config) (w : World) (m : Machine) :
  writeError w (reportPath CONFIG) = None ->
  writeError w (manifestPath CONFIG) = None ->
  fst (generateReports CONFIG w m) = Ok tt
  /\ stats (snd (generateReports CONFIG w m)) = stats m
  /\ disk (snd (generateReports CONFIG w m)) !! reportPath CONFIG
     = Some (ReportJson (getReport (stats m)))
  /\ exists manifest,
       disk (snd (generateReports CONFIG w m)) !! manifestPath CONFIG
       = Some (ManifestJson manifest)
       /\ generatedAt manifest = now w
       /\ configuration manifest = CONFIG
       /\ statistics manifest = r_summary (getReport (stats m))
       /\ originDistribution manifest = originCounts (stats m)
       /\ integrityVerified (qualityMetrics manifest) = true
       /\ metadataCompliant (qualityMetrics manifest) = true.
Proof.
  intros Hw1 Hw2.
  destruct (generateReports_written CONFIG w m Hw1 Hw2) as (Hok & Hrep & Hman).
  split; [exact Hok | split; [apply generateReports_stats | split; assumption]].
Qed.

(** X15.  When the report file cannot be written, [generateReports] throws
    after that one attempt: the manifest is not written either, and the
    statistics stay as they were. *)
Theorem unwritable_report_stops_the_manifest
    (CONFIG : Config) (w : World) (m : Machine) (e : JsError) :
  writeError w (reportPath CONFIG) = Some e ->
  fst (generateReports CONFIG w m) = Throw e
  /\ disk (snd (generateReports CONFIG w m)) = disk m
  /\ stats (snd (generateReports CONFIG w m)) = stats m
  /\ trace (snd (generateReports CONFIG w m))
     = (trace m ++ [WriteFileSync (reportPath CONFIG)])%list.
Proof.
  intros Hw.
  destruct (generateReports_report_unwritable CONFIG w m e Hw) as (Hthrow & Hdisk & Htrace).
  split; [exact Hthrow | split; [exact Hdisk | split; [| exact Htrace]]].
  apply generateReports_stats.
Qed.


(** X17.  When discovery throws, the run ends with exit status 1 before any
    item is processed: the statistics are those of a fresh object and no
    file, report or manifest is written. *)
Theorem failed_discovery_aborts_the_run
    (CONFIG : Config) (w : World) (lib : MetadataLib) (e : JsError) :
  findFiles (datasetPath CONFIG) (root w) = Throw e ->
  fst (main CONFIG w) = 1
  /\ stats (snd (main CONFIG w)) = reset
  /\ disk (snd (main CONFIG w)) = ∅.
Proof.
  intros Hfiles.
  destruct (run_items_no_discovery CONFIG w start e Hfiles) as ([e' He'] & Hs & Hd).
  unfold main. rewrite run_split.
  destruct (run_items CONFIG w start) as [[[] | e''] m]; cbn [fst snd] in *;
    [discriminate He' |].
  now repeat split.
Qed.

(** X18.  When a run ends with exit status 0, the report file holds the
    report of the final statistics. *)
Theorem successful_run_writes_the_final_report
    (CONFIG : Config) (w : World) (lib : MetadataLib) :
  fst (main CONFIG w) = 0 ->
  disk (snd (main CONFIG w)) !! reportPath CONFIG
  = Some (ReportJson (getReport (stats (snd (main CONFIG w))))).
Proof.
  intros Hzero.
  destruct (main_status CONFIG w) as [_ Hiff].
  pose proof Hzero as Hz.
  apply Hiff in Hz as (_ & _ & Hw1 & Hw2).
  rewrite main_state. unfold main in Hzero. rewrite run_split in *.
  destruct (run_items CONFIG w start) as [[[] | e] m].
  - destruct (generateReports_written CONFIG w m Hw1 Hw2) as (_ & Hrep & _).
    now rewrite generateReports_stats.
  - discriminate Hzero.
Qed.

(** ** isProcessableFile and findFiles *)

Lemma prefix_cons (a b : ascii) (s t : string) :
  String.prefix (String a s) (String b t)
  = if ascii_dec a b then String.prefix s t else false.
Proof. reflexivity. Qed.

Lemma content_extension_is_not_sidecar (name ext : string) :
  In ext [".txt"; ".md"; ".html"; ".json"] ->
  endsWith name ext = true -> endsWith name ".meta.xml" = false.
Proof.
  unfold endsWith. intros Hin.
  change (String.rev ".meta.xml") with "lmx.atem.".
  destruct (String.rev name) as [| c r]; [reflexivity |].
  rewrite prefix_cons.
  destruct (ascii_dec "l" c) as [<- |]; [| reflexivity].
  cbn [In] in Hin.
  destruct Hin as [<- | [<- | [<- | [<- | []]]]].
  - change (String.rev ".txt") with "txt.". rewrite prefix_cons.
    destruct (ascii_dec "t" "l"); discriminate.
  - change (String.rev ".md") with "dm.". rewrite prefix_cons.
    destruct (ascii_dec "d" "l"); discriminate.
  - change (String.rev ".html") with "lmth.". rewrite !prefix_cons.
    destruct (ascii_dec "l" "l"); [| discriminate].
    destruct r as [| c2 r2]; [discriminate |].
    rewrite !prefix_cons.
    destruct (ascii_dec "m" c2) as [<- |]; [| discriminate].
    destruct r2 as [| c3 r3]; [discriminate |].
    rewrite !prefix_cons.
    destruct (ascii_dec "t" c3) as [<- |]; [| discriminate].
    destruct (ascii_dec "x" "t"); [discriminate | reflexivity].
  - change (String.rev ".json") with "nosj.". rewrite prefix_cons.
    destruct (ascii_dec "n" "l"); discriminate.
Qed.

(** X19.  The test for the sidecar suffix in [isProcessableFile] never
    decides: a name is an item exactly when it ends with one of the four
    content extensions, and such a name never ends with [.meta.xml], so a
    sidecar is never an item. *)
Theorem isProcessableFile_by_extension (name : string) :
  isProcessableFile name
  = existsb (fun ext => endsWith name ext) [".txt"; ".md"; ".html"; ".json"]
  /\ (endsWith name ".meta.xml" = true -> isProcessableFile name = false).
Proof.
  unfold isProcessableFile. split.
  - destruct (existsb (fun ext => endsWith name ext) [".txt"; ".md"; ".html"; ".json"])
      eqn:Hex; [| reflexivity].
    apply existsb_exists in Hex as (ext & Hin & Hends).
    now rewrite (content_extension_is_not_sidecar name ext Hin Hends).
  - intros ->. now rewrite andb_false_r.
Qed.

Lemma findFiles_loop_cons directory item child rest files :
  findFiles_loop directory ((item, child) :: rest) files
  = let fullPath := path_join directory item in
    match child with
    | Unstattable e => Throw e
    | File _ _ =>
        if isProcessableFile item
        then findFiles_loop directory rest (files ++ [fullPath])%list
        else findFiles_loop directory rest files
    | Directory _ | UnreadableDir _ =>
        match findFiles fullPath child with
        | Ok found => findFiles_loop directory rest (files ++ found)%list
        | Throw e => Throw e
        end
    end.
Proof. reflexivity. Qed.

Lemma findFiles_loop_fails directory items :
  Forall (fun entry =>
            forall dir, readable (snd entry) = false ->
                        exists e, findFiles dir (snd entry) = Throw e) items ->
  forallb (fun entry => readable (snd entry)) items = false ->
  forall files, exists e, findFiles_loop directory items files = Throw e.
Proof.
  induction 1 as [| [item child] rest Hchild _ IH]; intros Hread files;
    [discriminate Hread |].
  cbn [forallb snd] in Hread. rewrite findFiles_loop_cons. cbv zeta.
  cbn [snd] in Hchild.
  destruct (readable child) eqn:Hc.
  - cbn [andb] in Hread.
    pose proof (findFiles_traverse child (path_join directory item) Hc) as Hok.
    unfold found_as_traversed in Hok.
    destruct child as [sz content | sub | e | e]; try discriminate Hc.
    + destruct (isProcessableFile item); apply (IH Hread).
    + rewrite Hok. apply (IH Hread).
  - destruct (Hchild (path_join directory item) eq_refl) as [e He].
    destruct child as [sz content | sub | e' | e']; try discriminate Hc.
    + rewrite He. eauto.
    + rewrite He. eauto.
    + eauto.
Qed.

Lemma findFiles_fails node :
  forall directory,
    readable node = false -> exists e, findFiles directory node = Throw e.
Proof.
  induction node as [sz content | items IH | e | e] using FsNode_ind;
    intros directory Hread; try (cbn; eauto; fail).
  rewrite findFiles_unfold.
  exact (findFiles_loop_fails directory items IH Hread []).
Qed.

(** X20.  Discovery is all or nothing: [findFiles] on a directory returns a
    list exactly when every directory below it can be listed and every
    entry can be examined; one directory that cannot be listed or one entry
    on which [statSync] throws, at any depth, makes it throw. *)
Theorem discovery_succeeds_iff_readable
    (directory : string) (items : list (string * FsNode)) :
  (exists files, findFiles directory (Directory items) = Ok files)
  <-> readable (Directory items) = true.
Proof.
  split.
  - intros [files Hfiles].
    destruct (readable (Directory items)) eqn:Hread; [reflexivity |].
    destruct (findFiles_fails (Directory items) directory Hread) as [e He].
    congruence.
  - intros Hread. eexists.
    exact (findFiles_traverse (Directory items) directory Hread).
Qed.

(** ** DatasetStats *)




(** ** The further properties on explicit inputs *)

(** X1 on the intact item of the sample. *)
Lemma sidecar_takes_priority_witness :
  @extracts (Sample.config false) Sample.world Sample.lib "dataset/a.txt" start
  = Some (Sample.human_record "sha256:hello").
Proof.
  pose proof (sidecar_takes_priority (Sample.config false) Sample.world Sample.lib
                "dataset/a.txt" start "human:sha256:hello"
                (Some (Sample.human_record "sha256:hello"))
                eq_refl eq_refl eq_refl) as [_ Hext].
  exact Hext.
Defined.

(** X2 on the item of the sample that has no sidecar. *)
Lemma sidecar_failure_witness :
  @extracts (Sample.config false) Sample.world Sample.lib "dataset/sub/d.json" start
  = None.
Proof.
  pose proof (sidecar_failure_falls_back (Sample.config false) Sample.world
                Sample.lib "dataset/sub/d.json" start (or_introl eq_refl))
    as (_ & Hnone & _).
  exact (Hnone eq_refl).
Defined.

(** X3 on an item whose sidecar does not parse. *)
Lemma broken_sidecar_witness :
  let CONFIG := Sample.config true in
  let w := Sample.world_of Sample.broken_sidecar_tree [] in
  let m' := snd (@processFile CONFIG w Sample.lib "dataset/f.txt" start) in
  skippedFiles (stats m') = 1 /\ errors (stats m') = [].
Proof.
  intros CONFIG w m'.
  pose proof (broken_sidecar_is_skipped_silently CONFIG w Sample.lib
                "dataset/f.txt" start {| isDirectory := false; size := 10 |}
                eq_refl ltac:(vm_compute; discriminate) eq_refl eq_refl
                (or_intror (or_intror
                   (ex_intro _ "<content_metadata"
                      (ex_intro _ (mkError "XML parse error")
                         (conj eq_refl eq_refl))))))
    as (_ & Hs & _ & He).
  split; [exact Hs | exact He].
Defined.

(** X4 on an entry that cannot be examined. *)
Lemma unstattable_item_witness :
  let CONFIG := Sample.config false in
  let w := Sample.world_of Sample.dangling_tree [] in
  errors (stats (snd (@processFile CONFIG w Sample.lib "dataset/gone.txt" start)))
  = [ {| e_file := "dataset/gone.txt";
         e_error := "ENOENT: no such file or directory" |} ].
Proof.
  intros CONFIG w.
  pose proof (unstattable_item_is_errored CONFIG w Sample.lib "dataset/gone.txt"
                start ENOENT eq_refl) as (_ & _ & He & _).
  exact He.
Defined.

(** X5 on an item whose content cannot be read. *)
Lemma unreadable_content_witness :
  let CONFIG := Sample.config false in
  let w := Sample.world_of Sample.unreadable_tree [] in
  let m' := snd (@processFile CONFIG w Sample.lib "dataset/locked.txt" start) in
  fst (@processFile CONFIG w Sample.lib "dataset/locked.txt" start) = Ok None
  /\ errorFiles (stats m') = 1.
Proof.
  intros CONFIG w m'.
  pose proof (unreadable_content_is_errored CONFIG w Sample.lib
                "dataset/locked.txt" start {| isDirectory := false; size := 5 |}
                (Sample.human_record "sha256:hello")
                (mkError "EACCES: permission denied")
                eq_refl ltac:(vm_compute; discriminate) eq_refl eq_refl eq_refl
                eq_refl eq_refl)
    as (Hret & He & _).
  split; [exact Hret | exact He].
Defined.


(** X8 on the sample with the exclusion pattern [b.]. *)
Lemma excluded_item_witness :
  let CONFIG := Sample.config_excluding "b." in
  let m' := snd (@processFile CONFIG Sample.world Sample.lib "dataset/b.txt" start) in
  trace m'
  = [StatSync "dataset/b.txt"; At CheckFileSize "dataset/b.txt";
     At CheckExcludePatterns "dataset/b.txt"]
  /\ skippedFiles (stats m') = 1.
Proof.
  intros CONFIG m'.
  pose proof (excluded_item_skipped_unread CONFIG Sample.world Sample.lib
                "dataset/b.txt" start {| isDirectory := false; size := 12 |}
                eq_refl ltac:(vm_compute; discriminate) eq_refl)
    as (_ & Htrace & Hs & _).
  split; [exact Htrace | exact Hs].
Defined.

(** X11 on the intact item of the sample. *)
Lemma copy_witness :
  let CONFIG := Sample.config false in
  let w := Sample.world_of Sample.clean_tree [] in
  let item := {| p_filePath := "dataset/a.txt";
                 p_metadata := Sample.human_record "sha256:hello";
                 p_content := "hello" |} in
  disk (snd (@copyCleanFile CONFIG w item start)) !! "clean-dataset/a.txt.meta.xml"
  = Some (Bytes "<content_metadata><origin>human</origin></content_metadata>").
Proof.
  intros CONFIG w item.
  pose proof (copy_writes_content_and_sidecar CONFIG w item start
                (or_intror eq_refl) eq_refl eq_refl)
    as (_ & _ & Hside & _).
  exact Hside.
Defined.

(** X12 on the intact item of the sample, the sidecar not being writable. *)
Lemma half_copy_witness :
  let CONFIG := Sample.config false in
  let w := Sample.world_of Sample.clean_tree ["clean-dataset/a.txt.meta.xml"] in
  let item := {| p_filePath := "dataset/a.txt";
                 p_metadata := Sample.human_record "sha256:hello";
                 p_content := "hello" |} in
  let m' := snd (@copyCleanFile CONFIG w item start) in
  disk m' !! "clean-dataset/a.txt" = Some (Bytes "hello")
  /\ disk m' !! "clean-dataset/a.txt.meta.xml" = None.
Proof.
  intros CONFIG w item m'.
  pose proof (copy_can_leave_content_without_sidecar CONFIG w item start
                (mkError "EACCES: permission denied")
                (or_intror eq_refl) eq_refl eq_refl)
    as (Hcontent & Hside & _).
  split; [exact Hcontent | exact Hside].
Defined.

(** X13 on the intact item of the sample, in a read-only world. *)
Lemma copy_without_directory_witness :
  let CONFIG := Sample.config false in
  let w := Sample.read_only_world Sample.clean_tree in
  let item := {| p_filePath := "dataset/a.txt";
                 p_metadata := Sample.human_record "sha256:hello";
                 p_content := "hello" |} in
  disk (snd (@copyCleanFile CONFIG w item start)) = ∅.
Proof.
  intros CONFIG w item.
  pose proof (copy_without_directory_writes_nothing CONFIG w item start
                (mkError "EROFS: read-only file system") eq_refl eq_refl)
    as (Hdisk & _).
  exact Hdisk.
Defined.

(** X14 on a fresh state of the sample. *)
Lemma reports_witness :
  let CONFIG := Sample.config false in
  disk (snd (@generateReports CONFIG Sample.world start))
    !! "clean-dataset/processing-report.json"
  = Some (ReportJson (getReport reset)).
Proof.
  intros CONFIG.
  pose proof (reports_hold_the_statistics CONFIG Sample.world start
                eq_refl eq_refl) as (_ & _ & Hrep & _).
  exact Hrep.
Defined.

(** X15 on the sample, the report not being writable. *)
Lemma unwritable_report_witness :
  let CONFIG := Sample.config false in
  let w := Sample.world_of Sample.clean_tree ["clean-dataset/processing-report.json"] in
  disk (snd (@generateReports CONFIG w start)) = ∅.
Proof.
  intros CONFIG w.
  pose proof (unwritable_report_stops_the_manifest CONFIG w start
                (mkError "EACCES: permission denied") eq_refl) as (_ & Hdisk & _).
  exact Hdisk.
Defined.


(** X17 on a tree with an entry that cannot be examined. *)
Lemma failed_discovery_witness :
  fst (@main (Sample.config false) (Sample.world_of Sample.dangling_tree [])
         Sample.lib) = 1.
Proof.
  pose proof (failed_discovery_aborts_the_run (Sample.config false)
                (Sample.world_of Sample.dangling_tree []) Sample.lib ENOENT eq_refl)
    as (Hstatus & _).
  exact Hstatus.
Defined.

(** X18 on the sample. *)
Lemma final_report_witness :
  let m := snd (@main (Sample.config false) Sample.world Sample.lib) in
  disk m !! "clean-dataset/processing-report.json"
  = Some (ReportJson (getReport (stats m))).
Proof.
  intros m.
  exact (successful_run_writes_the_final_report (Sample.config false)
           Sample.world Sample.lib eq_refl).
Defined.


(** X22.  A status other than the three known ones is not rejected: the
    call returns, adds one to [totalFiles] and to no outcome counter, so
    that an object whose counters added up no longer adds up. *)
Theorem unknown_status_counts_only_the_total
    (metadata : option MetadataObject) (fileSize : Z) (status : string)
    (s : DatasetStats) :
  ~ known_status status ->
  let s' := snd (recordFile metadata fileSize status s) in
  fst (recordFile metadata fileSize status s) = Ok tt
  /\ totalFiles s' = totalFiles s + 1
  /\ processedFiles s' = processedFiles s
  /\ skippedFiles s' = skippedFiles s
  /\ errorFiles s' = errorFiles s
  /\ (balanced s -> ~ balanced s').
Proof.
  intros Hunknown. unfold known_status in Hunknown. unfold recordFile.
  destruct (String.eqb_spec status "processed") as [-> | _]; [tauto |].
  destruct (String.eqb_spec status "skipped") as [-> | _]; [tauto |].
  destruct (String.eqb_spec status "error") as [-> | _]; [tauto |].
  cbn. repeat split; try reflexivity.
  unfold balanced; cbn. lia.
Qed.

(** X22 on a misspelt status. *)
Lemma unknown_status_witness :
  totalFiles (snd (recordFile None 0 "skiped" reset)) = 1
  /\ skippedFiles (snd (recordFile None 0 "skiped" reset)) = 0.
Proof.
  assert (~ known_status "skiped") as Hunknown.
  { unfold known_status. intros [Hk | [Hk | Hk]]; discriminate Hk. }
  pose proof (unknown_status_counts_only_the_total None 0 "skiped" reset Hunknown)
    as (_ & Ht & _ & Hs & _).
  split; [exact Ht | exact Hs].
Defined.

Lemma verdict_same_files (CONFIG : Config) (w : World) `{MetadataLib}
    (filePath : string) (m m' : Machine) :
  dirs m = dirs m' -> disk m = disk m' ->
  verdict CONFIG w filePath m = verdict CONFIG w filePath m'.
Proof.
  intros Hd Hk. unfold verdict.
  now rewrite (extracts_same_files CONFIG w filePath m m' Hd Hk).
Qed.

(** X23.  What [processFile] decides about an item does not depend on the
    statistics or on the history: in two states with the same created files
    and directories it returns the same value and changes the statistics in
    the same way, so the outcome of an item is independent of the items
    processed before it. *)
Theorem item_outcome_ignores_statistics
    (CONFIG : Config) (w : World) (lib : MetadataLib)
    (filePath : string) (m m' : Machine) :
  dirs m = dirs m' ->
  disk m = disk m' ->
  fst (processFile CONFIG w filePath m) = fst (processFile CONFIG w filePath m')
  /\ forall s,
       stats (snd (processFile CONFIG w filePath (set_stats s m)))
       = stats (snd (processFile CONFIG w filePath (set_stats s m'))).
Proof.
  intros Hd Hk. split.
  - rewrite !processFile_returns.
    now rewrite (verdict_same_files CONFIG w filePath m m' Hd Hk).
  - intros s. rewrite !processFile_stats.
    now rewrite (verdict_same_files CONFIG w filePath (set_stats s m) (set_stats s m')
                   Hd Hk).
Qed.

(** X23 on the intact item of the sample, before and after another item. *)
Lemma item_outcome_witness :
  let CONFIG := Sample.config false in
  let after := snd (@processFile CONFIG Sample.world Sample.lib "dataset/b.txt" start) in
  fst (@processFile CONFIG Sample.world Sample.lib "dataset/a.txt" start)
  = fst (@processFile CONFIG Sample.world Sample.lib "dataset/a.txt" after).
Proof.
  intros CONFIG after.
  pose proof (item_outcome_ignores_statistics CONFIG Sample.world Sample.lib
                "dataset/a.txt" start after eq_refl eq_refl) as [Hsame _].
  exact Hsame.
Defined.
